(** * Course and session controllers: a shallow embedding

    The REST service keeps every course in one JSON document,
    [data.json], and each endpoint loads the whole document, works on
    the decoded value and writes the whole document back.  This file
    embeds [cours_controller.py] and [session_controller.py]:

    - a decoded JSON document is a value of [json]; a Python [dict] is
      an association list in insertion order, the order [json.dump]
      writes;
    - number literals are integers (the identifiers of the data model);
      a [str] is the Rocq string of its UTF-8 bytes, so the values are
      the texts that [json.dump] can write;
    - Python exceptions are the [Raise] results of the [py] monad;
    - the file [data.json] and the calls of [load_data] and [save_data]
      are the state of the [M] monad; a file that cannot be read or
      decoded is a state of its own, with the exception it raises;
    - an object found by a search is a position inside the document: a
      freshly decoded document shares no object, so an in-place change
      of the object is a change at that position. *)

From stdpp Require Import base list strings.
From Stdlib Require Import ZArith Lia.

Open Scope Z_scope.

(** ** JSON values as Python sees them *)

#[warnings="-register-all"] Inductive json : Type :=
| JNull
| JBool (b : bool)
| JInt (n : Z)
| JStr (s : string)
| JArr (l : list json)
| JObj (kvs : list (string * json)).

Abbreviation dict := (list (string * json)).

(** [d.get(k)] on the association list: the binding of [k]. *)
Fixpoint dict_get (k : string) (d : dict) : option json :=
  match d with
  | [] => None
  | (k', v) :: r => if String.eqb k k' then Some v else dict_get k r
  end.

(** [d[k] = v]: replaces the value where [k] is bound, and adds the
    binding at the end otherwise. *)
Fixpoint dict_set (k : string) (v : json) (d : dict) : dict :=
  match d with
  | [] => [(k, v)]
  | (k', v') :: r =>
      if String.eqb k k' then (k', v) :: r else (k', v') :: dict_set k v r
  end.

(** [d.update(p)] for a mapping [p]: [d[k] = v] for each item of [p]
    in order. *)
Definition dict_update (d p : dict) : dict :=
  fold_left (fun acc kv => dict_set kv.1 kv.2 acc) p d.

(** Python's [==] on decoded values: [True == 1] and [False == 0] hold,
    lists are compared element by element, dicts by size and then key
    by key of the left operand. *)
Fixpoint py_eq (a b : json) {struct a} : bool :=
  match a, b with
  | JNull, JNull => true
  | JBool x, JBool y => Bool.eqb x y
  | JBool x, JInt n => Z.eqb (Z.b2z x) n
  | JInt m, JBool y => Z.eqb m (Z.b2z y)
  | JInt m, JInt n => Z.eqb m n
  | JStr s, JStr t => String.eqb s t
  | JArr l, JArr l' =>
      (fix elems (l l' : list json) : bool :=
         match l, l' with
         | [], [] => true
         | x :: r, y :: r' => py_eq x y && elems r r'
         | _, _ => false
         end) l l'
  | JObj d, JObj d' =>
      Nat.eqb (length d) (length d') &&
      (fix items (d : dict) : bool :=
         match d with
         | [] => true
         | (k, v) :: r =>
             match dict_get k d' with
             | Some w => py_eq v w
             | None => false
             end && items r
         end) d
  | _, _ => false
  end.

(** [bool(v)]: [None], [False], [0] and the empty containers are false. *)
Definition truthy (v : json) : bool :=
  match v with
  | JNull => false
  | JBool b => b
  | JInt n => negb (Z.eqb n 0)
  | JStr s => negb (String.eqb s "")
  | JArr l => match l with [] => false | _ => true end
  | JObj d => match d with [] => false | _ => true end
  end.

(** ** Exceptions *)

Inductive exn : Type :=
| KeyError | TypeError | AttributeError | IndexError | ValueError
| JSONDecodeError | UnicodeDecodeError | RecursionError | FileNotFoundError.

Inductive result (A : Type) : Type :=
| Ok (a : A)
| Raise (e : exn).
Arguments Ok {A} a.
Arguments Raise {A} e.

Abbreviation py := result.

#[global] Instance result_ret : MRet result := fun _ a => Ok a.
#[global] Instance result_bind : MBind result := fun _ _ f m =>
  match m with
  | Ok a => f a
  | Raise e => Raise e
  end.

(** ** The Python operations the controllers use *)

(** [v[k]] for a string [k]. *)
Definition py_getitem (v : json) (k : string) : py json :=
  match v with
  | JObj d => match dict_get k d with
              | Some x => Ok x
              | None => Raise KeyError
              end
  | _ => Raise TypeError
  end.

(** [v.get(k, dflt)]. *)
Definition py_get (v : json) (k : string) (dflt : json) : py json :=
  match v with
  | JObj d => Ok (default dflt (dict_get k d))
  | _ => Raise AttributeError
  end.

(** A byte [10xxxxxx] continues the character of the byte before it. *)
Definition continuation (a : Ascii.ascii) : bool :=
  match a with
  | Ascii.Ascii _ _ _ _ _ _ b6 b7 => b7 && negb b6
  end.

(** Whether a str starts with a continuation byte. *)
Definition continues (s : string) : bool :=
  match s with
  | String b _ => continuation b
  | EmptyString => false
  end.

(** The characters of a str, each with all its bytes. *)
Fixpoint code_points (s : string) : list string :=
  match s with
  | EmptyString => []
  | String a r =>
      match code_points r with
      | c :: cs =>
          if continues r then String a c :: cs
          else String a EmptyString :: c :: cs
      | [] => [String a EmptyString]
      end
  end.

Definition chars (s : string) : list json := map JStr (code_points s).

(** [iter(v)]: the elements of a list, the keys of a dict, the
    characters of a str. *)
Definition py_iter (v : json) : py (list json) :=
  match v with
  | JArr l => Ok l
  | JObj d => Ok (map (fun kv => JStr kv.1) d)
  | JStr s => Ok (chars s)
  | _ => Raise TypeError
  end.

(** [v[k] = x]. *)
Definition py_setitem (v : json) (k : string) (x : json) : py json :=
  match v with
  | JObj d => Ok (JObj (dict_set k x d))
  | _ => Raise TypeError
  end.

(** [v.append(x)]. *)
Definition py_append (v : json) (x : json) : py json :=
  match v with
  | JArr l => Ok (JArr (l ++ [x]))
  | _ => Raise AttributeError
  end.

(** [v.update(p)] for a mapping [p]. *)
Definition py_update (v : json) (p : dict) : py json :=
  match v with
  | JObj d => Ok (JObj (dict_update d p))
  | _ => Raise AttributeError
  end.

(** [v[k].f()] where [f] changes the object [v[k]] in place. *)
Definition in_item (k : string) (f : json -> py json) (v : json) : py json :=
  x ← py_getitem v k;
  x' ← f x;
  mret (match v with
        | JObj d => JObj (dict_set k x' d)
        | _ => v
        end).

(** [v[0].f()] where [f] changes the object [v[0]] in place.  A JSON
    dict has no key [0]; the first character of a str is a new object. *)
Definition in_first (f : json -> py json) (v : json) : py json :=
  match v with
  | JArr (x :: r) => x' ← f x; mret (JArr (x' :: r))
  | JArr [] => Raise IndexError
  | JStr s => match chars s with
              | c :: _ => _ ← f c; mret v
              | [] => Raise IndexError
              end
  | JObj _ => Raise KeyError
  | _ => Raise TypeError
  end.

(** ** References

    [next(gen, None)] and the [for] loops hand out objects of the
    document: [None], or the object at a position, with its value. *)

Definition ref (P : Type) : Type := option (P * json).

Definition deref {P : Type} (r : ref P) : json :=
  match r with
  | Some (_, v) => v
  | None => JNull
  end.

(** The first element from position [i] on that satisfies [p]. *)
Fixpoint next_from (p : json -> py bool) (l : list json) (i : nat)
  : py (ref nat) :=
  match l with
  | [] => Ok None
  | x :: r =>
      b ← p x;
      if b : bool then Ok (Some (i, x)) else next_from p r (S i)
  end.

(** [l.remove(x)] where [x] is the object at position [i]: the first
    item that is [x] or equals it goes. *)
Fixpoint remove_from (l : list json) (j : nat) (i : nat) (x : json)
  : py (list json) :=
  match l with
  | [] => Raise ValueError
  | y :: r =>
      if Nat.eqb j i || py_eq y x then Ok r
      else r' ← remove_from r (S j) i x; mret (y :: r')
  end.

(** [v.remove(x)] for a reference [x]; [None] is at no position of the
    list and goes by equality alone. *)
Definition py_remove (v : json) (x : ref nat) : py json :=
  match v with
  | JArr l =>
      match x with
      | Some (i, c) => l' ← remove_from l 0 i c; mret (JArr l')
      | None => l' ← remove_from l 0 (length l) JNull; mret (JArr l')
      end
  | _ => Raise AttributeError
  end.

(** The object at position [i] of [data['cours']] takes the value [c]. *)
Definition store_course (data : json) (i : nat) (c : json) : json :=
  match data with
  | JObj d =>
      match dict_get "cours" d with
      | Some (JArr l) => JObj (dict_set "cours" (JArr (<[i:=c]> l)) d)
      | _ => data
      end
  | _ => data
  end.

(** ** The data file and the state of a request *)

(** [data.json]: absent; present with a text [json.load] rejects with
    [JSONDecodeError]; present, and reading or decoding it raises the
    exception [e] ([UnicodeDecodeError] for bytes that are not UTF-8,
    [ValueError] for an integer literal over the limit of digits,
    [RecursionError] for a text nested too deep); or present with a
    text that decodes to [d]. *)
Inductive file : Type :=
| Missing
| Corrupt
| Unreadable (e : exn)
| Content (d : json).

(** The file, and how many times it was written. *)
Record fs : Type := mk_fs { data_json : file; writes : nat }.

Definition M (A : Type) : Type := fs -> py A * fs.

#[global] Instance M_ret : MRet M := fun _ a s => (Ok a, s).
#[global] Instance M_bind : MBind M := fun _ _ f m s =>
  match m s with
  | (Ok a, s') => f a s'
  | (Raise e, s') => (Raise e, s')
  end.

(** A computation that touches no file. *)
Definition pure {A : Type} (r : py A) : M A := fun s => (r, s).

(** A response: the body and the HTTP status. *)
Definition response : Type := json * Z.

Definition message (m : string) : json := JObj [("message", JStr m)].

(** [any(p(x) for x in l)]: stops at the first true element. *)
Fixpoint py_any (p : json -> py bool) (l : list json) : py bool :=
  match l with
  | [] => Ok false
  | x :: r => b ← p x; if b : bool then Ok true else py_any p r
  end.

(** [next((c for c in data['cours'] if c['id'] == course_id), None)],
    the search both controllers run. *)
Definition first_course (data : json) (course_id : Z) : py (ref nat) :=
  cours ← py_getitem data "cours";
  l ← py_iter cours;
  next_from (fun c => i ← py_getitem c "id";
                      mret (py_eq i (JInt course_id))) l 0.

(** The course a reference points to takes the value [c]. *)
Definition store_found (data : json) (course : ref nat) (c : json) : json :=
  match course with
  | Some (i, _) => store_course data i c
  | None => data
  end.

(** The object at position [k] of the sessions of the module at position
    [j] of [course] takes the value [s]. *)
Definition store_session (course : json) (j k : nat) (s : json) : json :=
  match course with
  | JObj d =>
      match dict_get "modules" d with
      | Some (JArr ms) =>
          match ms !! j with
          | Some (JObj m) =>
              match dict_get "seances" m with
              | Some (JArr ss) =>
                  JObj (dict_set "modules"
                          (JArr (<[j:=JObj (dict_set "seances"
                                              (JArr (<[k:=s]> ss)) m)]> ms)) d)
              | _ => course
              end
          | _ => course
          end
      | _ => course
      end
  | _ => course
  end.

(** ** cours_controller.py *)

Module cours_controller.

Definition COURSE_NOT_FOUND : json := message "Cours non trouvé.".

Definition COURSE_ALREADY_EXISTS : json :=
  message "Un cours avec cet ID existe déjà.".

Definition path_exists (f : file) : bool :=
  match f with
  | Missing => false
  | _ => true
  end.

(** [open(DATA_FILE)] and [json.load(f)]: the decoded document, or the
    exception that is raised. *)
Definition json_load (f : file) : py json :=
  match f with
  | Content d => Ok d
  | Corrupt => Raise JSONDecodeError
  | Unreadable e => Raise e
  | Missing => Raise FileNotFoundError
  end.

(** The [except] clause names [json.JSONDecodeError] and nothing else. *)
Definition load_data : M json := fun s =>
  if path_exists (data_json s) then
    match json_load (data_json s) with
    | Ok d => (Ok d, s)
    | Raise JSONDecodeError => (Ok (JObj [("cours", JArr [])]), s)
    | Raise e => (Raise e, s)
    end
  else (Ok (JObj [("cours", JArr [])]), s).

(** [json.dump] writes every value of [json], whose strings are UTF-8
    texts; the file then decodes to [data]. *)
Definition save_data (data : json) : M unit := fun s =>
  (Ok tt, {| data_json := Content data; writes := S (writes s) |}).

Definition courses_get : M response :=
  data ← load_data;
  cours ← pure (py_getitem data "cours");
  mret (JObj [("cours", cours)], 200).

Definition courses_post (course_data : json) : M response :=
  data ← load_data;
  cours ← pure (py_getitem data "cours");
  l ← pure (py_iter cours);
  taken ← pure (py_any (fun course =>
                          i ← py_getitem course "id";
                          i' ← py_get course_data "id" JNull;
                          mret (py_eq i i')) l);
  if taken : bool then mret (COURSE_ALREADY_EXISTS, 400)
  else
    data' ← pure (in_item "cours" (fun cs => py_append cs course_data) data);
    _ ← save_data data';
    mret (JObj [("message", JStr "Cours créé avec succès.");
                ("cours", course_data)], 201).

Definition courses_course_id_get (course_id : Z) : M response :=
  data ← load_data;
  course ← pure (first_course data course_id);
  if negb (truthy (deref course)) then mret (COURSE_NOT_FOUND, 404)
  else mret (deref course, 200).

Definition courses_course_id_put (course_id : Z) (course_data : dict)
  : M response :=
  data ← load_data;
  course ← pure (first_course data course_id);
  if negb (truthy (deref course)) then mret (COURSE_NOT_FOUND, 404)
  else
    course' ← pure (py_update (deref course) course_data);
    _ ← save_data (store_found data course course');
    mret (JObj [("message", JStr "Cours mis à jour avec succès.");
                ("cours", course')], 200).

Definition courses_course_id_delete (course_id : Z) : M response :=
  data ← load_data;
  course ← pure (first_course data course_id);
  if negb (truthy (deref course)) then mret (COURSE_NOT_FOUND, 404)
  else
    data' ← pure (in_item "cours" (fun cs => py_remove cs course) data);
    _ ← save_data data';
    mret (message "Cours supprimé avec succès.", 200).

End cours_controller.

(** ** session_controller.py *)

Module session_controller.

Definition COURSE_NOT_FOUND : json := message "Cours non trouvé.".

Definition SESSION_NOT_FOUND : json := message "Séance non trouvée.".

Definition SESSION_ALREADY_EXISTS : json :=
  message "Une séance avec cet ID existe déjà dans le cours.".

Definition SESSION_CREATED_SUCCESS : string := "Séance créée avec succès.".

Definition SESSION_UPDATED_SUCCESS : string :=
  "Séance mise à jour avec succès.".

Definition path_exists (f : file) : bool :=
  match f with
  | Missing => false
  | _ => true
  end.

Definition json_load (f : file) : py json :=
  match f with
  | Content d => Ok d
  | Corrupt => Raise JSONDecodeError
  | Unreadable e => Raise e
  | Missing => Raise FileNotFoundError
  end.

Definition load_data : M json := fun s =>
  if path_exists (data_json s) then
    match json_load (data_json s) with
    | Ok d => (Ok d, s)
    | Raise JSONDecodeError => (Ok (JObj [("cours", JArr [])]), s)
    | Raise e => (Raise e, s)
    end
  else (Ok (JObj [("cours", JArr [])]), s).

Definition save_data (data : json) : M unit := fun s =>
  (Ok tt, {| data_json := Content data; writes := S (writes s) |}).

Definition find_course_by_id (data : json) (course_id : Z) : py (ref nat) :=
  first_course data course_id.

(** The loop over the modules from position [j] on; the inner loop is
    the search of the first session of the module with the id. *)
Fixpoint scan_modules (ms : list json) (session_id : json) (j : nat)
  : py (ref (nat * nat)) :=
  match ms with
  | [] => Ok None
  | module :: r =>
      seances ← py_get module "seances" (JArr []);
      ss ← py_iter seances;
      found ← next_from (fun session =>
                           i ← py_getitem session "id";
                           mret (py_eq i session_id)) ss 0;
      match found with
      | Some (k, session) => Ok (Some ((j, k), session))
      | None => scan_modules r session_id (S j)
      end
  end.

Definition find_session_by_id (course : json) (session_id : json)
  : py (ref (nat * nat)) :=
  modules ← py_get course "modules" (JArr []);
  ms ← py_iter modules;
  scan_modules ms session_id 0.

(** [sessions.extend(module.get('seances', []))] for each module. *)
Fixpoint extend_all (ms : list json) (sessions : list json)
  : py (list json) :=
  match ms with
  | [] => Ok sessions
  | module :: r =>
      seances ← py_get module "seances" (JArr []);
      ss ← py_iter seances;
      extend_all r (sessions ++ ss)
  end.

Definition courses_course_id_sessions_get (course_id : Z) : M response :=
  data ← load_data;
  course ← pure (find_course_by_id data course_id);
  if negb (truthy (deref course)) then mret (COURSE_NOT_FOUND, 404)
  else
    modules ← pure (py_get (deref course) "modules" (JArr []));
    ms ← pure (py_iter modules);
    sessions ← pure (extend_all ms []);
    mret (JObj [("seances", JArr sessions)], 200).

(** The module the service makes for a course that has none. *)
Definition new_module : json :=
  JObj [("id", JStr "module_1"); ("titre", JStr "Nouveau module");
        ("seances", JArr [])].

Definition courses_course_id_sessions_post (course_id : Z)
  (session_data : json) : M response :=
  data ← load_data;
  course ← pure (find_course_by_id data course_id);
  if negb (truthy (deref course)) then mret (COURSE_NOT_FOUND, 404)
  else
    modules ← pure (py_getitem (deref course) "modules");
    ms ← pure (py_iter modules);
    taken ← pure (py_any (fun _module =>
                            i ← py_getitem session_data "id";
                            s ← find_session_by_id (deref course) i;
                            mret (truthy (deref s))) ms);
    if taken : bool then mret (SESSION_ALREADY_EXISTS, 400)
    else
      modules' ← pure (py_get (deref course) "modules" JNull);
      course1 ← pure (if negb (truthy modules')
                       then py_setitem (deref course) "modules"
                              (JArr [new_module])
                       else Ok (deref course));
      course2 ← pure (in_item "modules"
                        (in_first
                           (in_item "seances"
                              (fun ss => py_append ss session_data)))
                        course1);
      _ ← save_data (store_found data course course2);
      mret (JObj [("message", JStr SESSION_CREATED_SUCCESS);
                  ("seance", session_data)], 201).

Definition courses_course_id_sessions_session_id_put (course_id : Z)
  (session_id : Z) (session_data : dict) : M response :=
  data ← load_data;
  course ← pure (find_course_by_id data course_id);
  if negb (truthy (deref course)) then mret (COURSE_NOT_FOUND, 404)
  else
    session ← pure (find_session_by_id (deref course) (JInt session_id));
    if negb (truthy (deref session)) then mret (SESSION_NOT_FOUND, 404)
    else
      session' ← pure (py_update (deref session) session_data);
      let course' :=
        match session with
        | Some ((j, k), _) => store_session (deref course) j k session'
        | None => deref course
        end in
      _ ← save_data (store_found data course course');
      mret (JObj [("message", JStr SESSION_UPDATED_SUCCESS);
                  ("seance", session')], 200).

End session_controller.

(** ** Documents, courses, modules and sessions *)

(** What [load_data] hands to an endpoint in state [s]; [None] when
    it raises. *)
Definition document (s : fs) : json :=
  match (cours_controller.load_data s).1 with
  | Ok d => d
  | Raise _ => JNull
  end.

(** The state after [save_data data]. *)
Definition saved (data : json) (s : fs) : fs :=
  {| data_json := Content data; writes := S (writes s) |}.

Definition field (k : string) (v : json) : option json :=
  match v with
  | JObj d => dict_get k d
  | _ => None
  end.

(** The courses of a document, when it has the shape [{"cours": [...]}]. *)
Definition cours_of (data : json) : option (list json) :=
  match field "cours" data with
  | Some (JArr l) => Some l
  | _ => None
  end.

(** The document with [l] for its courses. *)
Definition with_cours (data : json) (l : list json) : json :=
  match data with
  | JObj d => JObj (dict_set "cours" (JArr l) d)
  | _ => data
  end.

(** The object [c] has an [id] and it equals [v]. *)
Definition has_id (v : json) (c : json) : bool :=
  match field "id" c with
  | Some i => py_eq i v
  | None => false
  end.

(** The object [c] has an [id] and it differs from [v]. *)
Definition other_id (v : json) (c : json) : bool :=
  match field "id" c with
  | Some i => negb (py_eq i v)
  | None => false
  end.

Definition identified (c : json) : bool :=
  match field "id" c with
  | Some _ => true
  | None => false
  end.

(** The modules of a course and the sessions of a module; a missing
    container counts for an empty one. *)
Definition modules_of (course : json) : list json :=
  match field "modules" course with
  | Some (JArr ms) => ms
  | _ => []
  end.

Definition seances_of (module : json) : list json :=
  match field "seances" module with
  | Some (JArr ss) => ss
  | _ => []
  end.

Definition sessions_of (course : json) : list json :=
  flat_map seances_of (modules_of course).

(** A module is an object whose [seances], when present, is a list of
    elements that satisfy [p]; a course is an object whose [modules],
    when present, is a list of such modules. *)
Definition module_ok (p : json -> bool) (m : json) : bool :=
  match m with
  | JObj d =>
      match dict_get "seances" d with
      | None => true
      | Some (JArr ss) => forallb p ss
      | Some _ => false
      end
  | _ => false
  end.

Definition course_ok (p : json -> bool) (c : json) : bool :=
  match c with
  | JObj d =>
      match dict_get "modules" d with
      | None => true
      | Some (JArr ms) => forallb (module_ok p) ms
      | Some _ => false
      end
  | _ => false
  end.

(** The containers have the right types. *)
Definition shaped (c : json) : bool := course_ok (fun _ => true) c.

(** Moreover every session has an [id]. *)
Definition wf_course (c : json) : bool := course_ok identified c.

(** The status of the response, when there is one. *)
Definition status (r : py response) : option Z :=
  match r with
  | Ok (_, n) => Some n
  | Raise _ => None
  end.

(** The comparison of the searches: [x['id'] == v]. *)
Definition id_is (v : json) (x : json) : py bool :=
  i ← py_getitem x "id"; mret (py_eq i v).

(** Between [s] and [s'] the file was written once, and the document
    changed only at the first course with the id [cid], which became
    [c']: the courses before it and after it are the same, in the
    same order. *)
Definition course_rewritten (cid : Z) (s s' : fs) (c c' : json) : Prop :=
  exists l1 l2,
    cours_of (document s) = Some (l1 ++ c :: l2) /\
    forallb (other_id (JInt cid)) l1 = true /\
    has_id (JInt cid) c = true /\
    s' = saved (with_cours (document s) (l1 ++ c' :: l2)) s /\
    cours_of (document s') = Some (l1 ++ c' :: l2).

(** The same, the first course with the id [cid] being taken out. *)
Definition course_removed (cid : Z) (s s' : fs) (c : json) : Prop :=
  exists l1 l2,
    cours_of (document s) = Some (l1 ++ c :: l2) /\
    forallb (other_id (JInt cid)) l1 = true /\
    has_id (JInt cid) c = true /\
    s' = saved (with_cours (document s) (l1 ++ l2)) s /\
    cours_of (document s') = Some (l1 ++ l2).

(** Where a created session goes.  [d] is the course before the
    creation and [ms'] its modules after it: a course without modules
    gets the one new module, holding the session alone; otherwise the
    session is added at the end of the sessions of the first module,
    and the first module stays the same apart from that, as do the
    other modules. *)
Definition placed (d : dict) (input : json) (ms' : list json) : Prop :=
  (modules_of (JObj d) = [] /\
   ms' = [JObj [("id", JStr "module_1"); ("titre", JStr "Nouveau module");
                ("seances", JArr [input])]]) \/
  (exists m0 rest ss,
     dict_get "modules" d = Some (JArr (JObj m0 :: rest)) /\
     dict_get "seances" m0 = Some (JArr ss) /\
     ms' = JObj (dict_set "seances" (JArr (ss ++ [input])) m0) :: rest).

(** ** Sample documents *)

Module sample.

(** A course without [modules]. *)
Definition algebra : json := JObj [("id", JInt 1); ("title", JStr "A")].

(** The same course with an empty list of modules. *)
Definition algebra_empty : json :=
  JObj [("id", JInt 1); ("title", JStr "A"); ("modules", JArr [])].

(** A course with two modules; the first one has no [seances]. *)
Definition logic : json :=
  JObj [("id", JInt 2);
        ("modules",
         JArr [JObj [("id", JStr "m1")];
               JObj [("id", JStr "m2");
                     ("seances", JArr [JObj [("id", JInt 7)];
                                       JObj [("id", JInt 8)]])]])].

(** The same course, the first module with an empty list of sessions. *)
Definition logic_empty : json :=
  JObj [("id", JInt 2);
        ("modules",
         JArr [JObj [("id", JStr "m1"); ("seances", JArr [])];
               JObj [("id", JStr "m2");
                     ("seances", JArr [JObj [("id", JInt 7)];
                                       JObj [("id", JInt 8)]])]])].

Definition physics : json := JObj [("id", JInt 3)].

(** [data.json] holding the courses [l], not yet written. *)
Definition disk (l : list json) : fs :=
  {| data_json := Content (JObj [("cours", JArr l)]); writes := 0 |}.

(** [data.json] holding the courses [l], written once. *)
Definition disk1 (l : list json) : fs :=
  {| data_json := Content (JObj [("cours", JArr l)]); writes := 1 |}.

Definition seance (n : Z) : json := JObj [("id", JInt n)].

End sample.

(** ** Vocabulary of the further properties *)

(** The answer, when there is one, has one of the statuses [codes]. *)
Definition answers (codes : list Z) (r : py response) : bool :=
  match status r with
  | Some n => existsb (Z.eqb n) codes
  | None => true
  end.

(** A request that started in [s] and ended as [r]: when it answered
    [ok] it wrote the file once, and when it answered another status
    it did not touch the file. *)
Definition written_when (ok : Z) (s : fs) (r : py response * fs) : Prop :=
  (status r.1 = Some ok ->
   writes r.2 = S (writes s) /\ exists d, data_json r.2 = Content d) /\
  (forall n, status r.1 = Some n -> n <> ok -> r.2 = s).

(** No course has an id equal to the id of a course before it. *)
Fixpoint ids_distinct (l : list json) : bool :=
  match l with
  | [] => true
  | c :: r =>
      match field "id" c with
      | Some i =>
          forallb (fun c' => match field "id" c' with
                             | Some i' => negb (py_eq i i')
                             | None => false
                             end) r && ids_distinct r
      | None => false
      end
  end.

(** The document of [s] is a list of courses with distinct ids. *)
Definition distinct_in (s : fs) : Prop :=
  exists l, cours_of (document s) = Some l /\ ids_distinct l = true.

(** Unfolds the two monads. *)
Ltac unmonad :=
  unfold mbind, mret, result_bind, result_ret, M_bind, M_ret, pure in *;
  simpl in *.

(** ** Dictionaries *)

Lemma dict_get_set_eq (k : string) (v : json) (d : dict) :
  dict_get k (dict_set k v d) = Some v.
Proof.
  induction d as [|[k' v'] r IH]; simpl.
  - now rewrite String.eqb_refl.
  - destruct (String.eqb k k') eqn:E; simpl; rewrite E; auto.
Qed.

Lemma dict_get_set_ne (k k' : string) (v : json) (d : dict) :
  k <> k' -> dict_get k' (dict_set k v d) = dict_get k' d.
Proof.
  intros Hne. induction d as [|[k0 v0] r IH]; simpl.
  - destruct (String.eqb k' k) eqn:E; auto.
    apply String.eqb_eq in E. congruence.
  - destruct (String.eqb k k0) eqn:E; simpl.
    + apply String.eqb_eq in E. subst k0.
      destruct (String.eqb k' k) eqn:E'; auto.
      apply String.eqb_eq in E'. congruence.
    + now rewrite IH.
Qed.

Lemma dict_get_None (k : string) (d : dict) :
  k ∉ d.*1 -> dict_get k d = None.
Proof.
  induction d as [|[k' v'] r IH]; simpl; auto.
  intros Hk. destruct (String.eqb k k') eqn:E.
  - apply String.eqb_eq in E. subst. exfalso. apply Hk. left.
  - apply IH. intros Hin. apply Hk. now right.
Qed.

(** The shallow merge, key by key: the patch wins where it has the key. *)
Lemma dict_get_update (k : string) (p d : dict) :
  NoDup p.*1 ->
  dict_get k (dict_update d p) =
  match dict_get k p with
  | Some v => Some v
  | None => dict_get k d
  end.
Proof.
  unfold dict_update. revert d.
  induction p as [|[k0 v0] p IH]; intros d Hnd; simpl; auto.
  inversion Hnd as [|? ? Hnotin Hnd']; subst.
  rewrite IH by assumption.
  destruct (String.eqb k k0) eqn:E.
  - apply String.eqb_eq in E. subst k0.
    rewrite (dict_get_None k p Hnotin). apply dict_get_set_eq.
  - destruct (dict_get k p); auto.
    apply dict_get_set_ne. intros ->. now rewrite String.eqb_refl in E.
Qed.

(** ** Searches *)

Lemma id_is_true (v x : json) : id_is v x = Ok true <-> has_id v x = true.
Proof.
  unfold id_is, has_id, field, py_getitem.
  destruct x; unmonad; try (split; discriminate).
  destruct (dict_get "id" kvs); split; intros H; try discriminate;
    congruence.
Qed.

Lemma id_is_false (v x : json) : id_is v x = Ok false <-> other_id v x = true.
Proof.
  unfold id_is, other_id, field, py_getitem.
  destruct x; unmonad; try (split; discriminate).
  destruct (dict_get "id" kvs); try (split; discriminate).
  destruct (py_eq j v); simpl; split; intros H; try discriminate; auto.
Qed.

(** An object that passes the comparison is a non-empty dict. *)
Lemma has_id_truthy (v x : json) : has_id v x = true -> truthy x = true.
Proof.
  unfold has_id, field. destruct x; simpl; try discriminate.
  destruct kvs; simpl; auto; discriminate.
Qed.

Lemma next_from_found (p : json -> py bool) (l1 l2 : list json) (c : json)
  (i : nat) :
  Forall (fun x => p x = Ok false) l1 -> p c = Ok true ->
  next_from p (l1 ++ c :: l2) i = Ok (Some ((i + length l1)%nat, c)).
Proof.
  intros Hl1 Hc. revert i.
  induction Hl1 as [|x l1 Hx _ IH]; intros i; simpl.
  - rewrite Hc. simpl. now rewrite Nat.add_0_r.
  - rewrite Hx. simpl. rewrite IH. do 3 f_equal. lia.
Qed.

Lemma next_from_none (p : json -> py bool) (l : list json) (i : nat) :
  Forall (fun x => p x = Ok false) l -> next_from p l i = Ok None.
Proof.
  intros Hl. revert i. induction Hl as [|x l Hx _ IH]; intros i; simpl; auto.
  rewrite Hx. simpl. apply IH.
Qed.

Lemma next_from_inv (p : json -> py bool) (l : list json) (i n : nat)
  (c : json) :
  next_from p l i = Ok (Some (n, c)) ->
  exists l1 l2, l = l1 ++ c :: l2 /\ n = (i + length l1)%nat /\
                Forall (fun x => p x = Ok false) l1 /\ p c = Ok true.
Proof.
  revert i. induction l as [|x l IH]; intros i; simpl; [discriminate|].
  destruct (p x) as [[|]|] eqn:Hx; simpl; try discriminate.
  - intros [= <- <-]. exists [], l. simpl. repeat split; auto; lia.
  - intros H. destruct (IH _ H) as (l1 & l2 & -> & -> & Hl1 & Hc).
    exists (x :: l1), l2. simpl. repeat split; auto; lia.
Qed.

Lemma next_from_None_inv (p : json -> py bool) (l : list json) (i : nat) :
  next_from p l i = Ok None -> Forall (fun x => p x = Ok false) l.
Proof.
  revert i. induction l as [|x l IH]; intros i; simpl; auto.
  destruct (p x) as [[|]|] eqn:Hx; simpl; try discriminate.
  intros H. constructor; eauto.
Qed.

Lemma forallb_Forall_eq {A : Type} (f : A -> bool) (l : list A) :
  forallb f l = true <-> Forall (fun x => f x = true) l.
Proof.
  induction l as [|x l IH]; simpl.
  - split; auto.
  - rewrite andb_true_iff, IH. split.
    + intros [? ?]. now constructor.
    + intros H. inversion H; subst. auto.
Qed.

Lemma others_no_match (v : json) (l : list json) :
  forallb (other_id v) l = true ->
  Forall (fun x => id_is v x = Ok false) l.
Proof.
  rewrite forallb_Forall_eq. intros H.
  eapply Forall_impl; [exact H|]. intros x. apply id_is_false.
Qed.

Lemma first_course_found (data : json) (cid : Z) (l1 l2 : list json)
  (c : json) :
  cours_of data = Some (l1 ++ c :: l2) ->
  forallb (other_id (JInt cid)) l1 = true ->
  has_id (JInt cid) c = true ->
  first_course data cid = Ok (Some (length l1, c)).
Proof.
  intros Hd Hl1 Hc. unfold first_course, cours_of, field in *.
  destruct data; try discriminate. simpl.
  destruct (dict_get "cours" kvs) as [[]|]; try discriminate.
  injection Hd as ->. unmonad.
  apply (next_from_found (id_is (JInt cid)) l1 l2 c 0).
  - now apply others_no_match.
  - now apply id_is_true.
Qed.

Lemma first_course_none (data : json) (cid : Z) (l : list json) :
  cours_of data = Some l ->
  forallb (other_id (JInt cid)) l = true ->
  first_course data cid = Ok None.
Proof.
  intros Hd Hl. unfold first_course, cours_of, field in *.
  destruct data; try discriminate. simpl.
  destruct (dict_get "cours" kvs) as [[]|]; try discriminate.
  injection Hd as ->. unmonad.
  apply (next_from_none (id_is (JInt cid))). now apply others_no_match.
Qed.

Lemma has_id_obj (v c : json) :
  has_id v c = true -> exists d, c = JObj d.
Proof. destruct c; try discriminate. eauto. Qed.

(** A course is only ever found in a list of courses: the keys of a
    dict and the characters of a str have no [id]. *)
Lemma first_course_inv (data : json) (cid : Z) (n : nat) (c : json) :
  first_course data cid = Ok (Some (n, c)) ->
  exists l1 l2, cours_of data = Some (l1 ++ c :: l2) /\ n = length l1 /\
                forallb (other_id (JInt cid)) l1 = true /\
                has_id (JInt cid) c = true.
Proof.
  unfold first_course, cours_of, field, py_getitem.
  destruct data; unmonad; try discriminate.
  destruct (dict_get "cours" kvs) as [cours|]; try discriminate.
  destruct (py_iter cours) as [l|] eqn:Hit; try discriminate.
  intros H. apply (next_from_inv (id_is (JInt cid))) in H.
  destruct H as (l1 & l2 & -> & -> & Hl1 & Hc).
  apply id_is_true in Hc.
  assert (Hin : c ∈ l1 ++ c :: l2) by (apply elem_of_app; right; left).
  destruct cours; simpl in Hit; try discriminate; injection Hit as Hit.
  - exfalso. unfold chars in Hit. rewrite <- Hit in Hin.
    apply list_elem_of_fmap in Hin as (a & -> & _). discriminate.
  - subst l. exists l1, l2. repeat split; auto.
    apply forallb_Forall_eq. eapply Forall_impl; [exact Hl1|].
    intros x. apply id_is_false.
  - exfalso. rewrite <- Hit in Hin.
    apply list_elem_of_fmap in Hin as (a & -> & _). discriminate.
Qed.

Lemma first_course_None_inv (data : json) (cid : Z) :
  first_course data cid = Ok None ->
  forall l, cours_of data = Some l -> forallb (other_id (JInt cid)) l = true.
Proof.
  unfold first_course, cours_of, field, py_getitem.
  destruct data; unmonad; try discriminate.
  destruct (dict_get "cours" kvs) as [[]|]; try discriminate.
  simpl. intros H l0 [= <-].
  apply (next_from_None_inv (id_is (JInt cid))) in H.
  apply forallb_Forall_eq. eapply Forall_impl; [exact H|].
  intros x. apply id_is_false.
Qed.

Lemma insert_middle (l1 l2 : list json) (c c' : json) :
  <[length l1:=c']> (l1 ++ c :: l2) = l1 ++ c' :: l2.
Proof. induction l1 as [|x l1 IH]; simpl; auto. now rewrite IH. Qed.

Lemma store_course_middle (data : json) (l1 l2 : list json) (c c' : json) :
  cours_of data = Some (l1 ++ c :: l2) ->
  store_course data (length l1) c' = with_cours data (l1 ++ c' :: l2).
Proof.
  unfold cours_of, field, store_course, with_cours.
  destruct data; try discriminate.
  destruct (dict_get "cours" kvs) as [[]|]; try discriminate.
  intros [= ->]. now rewrite insert_middle.
Qed.

Lemma cours_of_with_cours (data : json) (l l' : list json) :
  cours_of data = Some l -> cours_of (with_cours data l') = Some l'.
Proof.
  unfold cours_of, field, with_cours. destruct data; try discriminate.
  intros _. now rewrite dict_get_set_eq.
Qed.

(** [load_data] either hands the document over or raises, the same in
    the two controllers, and leaves the file as it is. *)
Lemma load_cases (s : fs) :
  (cours_controller.load_data s = (Ok (document s), s) /\
   session_controller.load_data s = (Ok (document s), s)) \/
  (exists e, cours_controller.load_data s = (Raise e, s) /\
             session_controller.load_data s = (Raise e, s) /\
             document s = JNull).
Proof.
  unfold document, cours_controller.load_data, session_controller.load_data.
  destruct (data_json s) as [| |e|d]; simpl; auto.
  destruct e; simpl; eauto.
Qed.

Lemma cours_load (s : fs) (l : list json) :
  cours_of (document s) = Some l ->
  cours_controller.load_data s = (Ok (document s), s).
Proof.
  intros H. destruct (load_cases s) as [[Hc _]|(e & _ & _ & Hn)]; auto.
  rewrite Hn in H. discriminate.
Qed.

Lemma session_load (s : fs) (l : list json) :
  cours_of (document s) = Some l ->
  session_controller.load_data s = (Ok (document s), s).
Proof.
  intros H. destruct (load_cases s) as [[_ Hs]|(e & _ & _ & Hn)]; auto.
  rewrite Hn in H. discriminate.
Qed.

Lemma cours_load_obj (s : fs) (d : dict) :
  document s = JObj d ->
  cours_controller.load_data s = (Ok (document s), s).
Proof.
  intros H. destruct (load_cases s) as [[Hc _]|(e & _ & _ & Hn)]; auto.
  rewrite Hn in H. discriminate.
Qed.

Lemma session_load_obj (s : fs) (d : dict) :
  document s = JObj d ->
  session_controller.load_data s = (Ok (document s), s).
Proof.
  intros H. destruct (load_cases s) as [[_ Hs]|(e & _ & _ & Hn)]; auto.
  rewrite Hn in H. discriminate.
Qed.

(** ** The course endpoints *)

(** C7: [load_data] of either controller returns the document
    [{"cours": []}], raising nothing and leaving the file as it is,
    when [data.json] does not exist and when [json.load] rejects its
    text with [JSONDecodeError]; the caller then sees no course.  It
    does not do so for a file that fails in another way: when reading
    or decoding the file raises another exception, bytes that are not
    UTF-8 for one, [load_data] lets the exception through and the
    endpoint raises it. *)
Theorem load_data_catches_decode_error_only (s : fs) :
  (data_json s = Missing \/ data_json s = Corrupt ->
   cours_controller.load_data s = (Ok (JObj [("cours", JArr [])]), s) /\
   session_controller.load_data s = (Ok (JObj [("cours", JArr [])]), s) /\
   cours_controller.courses_get s =
     (Ok (JObj [("cours", JArr [])], 200), s) /\
   forall cid,
     session_controller.courses_course_id_sessions_get cid s =
       (Ok (session_controller.COURSE_NOT_FOUND, 404), s)) /\
  (forall e,
     data_json s = Unreadable e -> e <> JSONDecodeError ->
     cours_controller.load_data s = (Raise e, s) /\
     session_controller.load_data s = (Raise e, s) /\
     cours_controller.courses_get s = (Raise e, s) /\
     forall cid,
       session_controller.courses_course_id_sessions_get cid s =
         (Raise e, s)).
Proof.
  split.
  - intros H.
    assert (Hc : cours_controller.load_data s =
                 (Ok (JObj [("cours", JArr [])]), s)).
    { unfold cours_controller.load_data.
      destruct H as [H|H]; rewrite H; reflexivity. }
    assert (Hs : session_controller.load_data s =
                 (Ok (JObj [("cours", JArr [])]), s)).
    { unfold session_controller.load_data.
      destruct H as [H|H]; rewrite H; reflexivity. }
    repeat split; auto.
    + unfold cours_controller.courses_get. unmonad. now rewrite Hc.
    + intros cid. unfold session_controller.courses_course_id_sessions_get.
      unmonad. now rewrite Hs.
  - intros e H Hne.
    assert (Hc : cours_controller.load_data s = (Raise e, s)).
    { unfold cours_controller.load_data. rewrite H.
      destruct e; simpl; congruence. }
    assert (Hs : session_controller.load_data s = (Raise e, s)).
    { unfold session_controller.load_data. rewrite H.
      destruct e; simpl; congruence. }
    repeat split; auto.
    + unfold cours_controller.courses_get. unmonad. now rewrite Hc.
    + intros cid. unfold session_controller.courses_course_id_sessions_get.
      unmonad. now rewrite Hs.
Qed.

(** C3: updating a course.  When every course of the document has
    another id the answer is 404 and nothing is written.  When the
    first course with the id is the object [d], the answer is 200 with
    the merged course, the document is written with the merged course
    in the place of [d], and the merged course has, for every key, the
    value of the patch when the patch has the key (for [id] too) and
    the value of [d] otherwise.  The keys of the patch are distinct, as
    those of a decoded JSON object are. *)
Theorem put_course_shallow_merge (s : fs) (cid : Z) (patch : dict) :
  (forall l,
     cours_of (document s) = Some l ->
     forallb (other_id (JInt cid)) l = true ->
     cours_controller.courses_course_id_put cid patch s =
       (Ok (cours_controller.COURSE_NOT_FOUND, 404), s)) /\
  (forall l1 d l2,
     cours_of (document s) = Some (l1 ++ JObj d :: l2) ->
     forallb (other_id (JInt cid)) l1 = true ->
     has_id (JInt cid) (JObj d) = true ->
     NoDup patch.*1 ->
     cours_controller.courses_course_id_put cid patch s =
       (Ok (JObj [("message", JStr "Cours mis à jour avec succès.");
                  ("cours", JObj (dict_update d patch))], 200),
        saved (with_cours (document s)
                 (l1 ++ JObj (dict_update d patch) :: l2)) s) /\
     forall k,
       dict_get k (dict_update d patch) =
       match dict_get k patch with
       | Some v => Some v
       | None => dict_get k d
       end).
Proof.
  split.
  - intros l Hd Hl. unfold cours_controller.courses_course_id_put. unmonad.
    rewrite (cours_load _ _ Hd), (first_course_none _ _ _ Hd Hl). reflexivity.
  - intros l1 d l2 Hd Hl1 Hc Hnd. split.
    + unfold cours_controller.courses_course_id_put. unmonad.
      rewrite (cours_load _ _ Hd), (first_course_found _ _ _ _ _ Hd Hl1 Hc).
      cbv beta iota. cbn [deref]. rewrite (has_id_truthy _ _ Hc). simpl.
      rewrite (store_course_middle _ _ _ _ _ Hd). reflexivity.
    + intros k. now apply dict_get_update.
Qed.

(** [l.remove(c)] takes out the first course that has the id: no
    earlier course equals [c], since it would then have the id. *)
Lemma py_eq_int_trans (a b : json) (n : Z) :
  py_eq a b = true -> py_eq b (JInt n) = true -> py_eq a (JInt n) = true.
Proof.
  destruct b; simpl; try discriminate; destruct a; simpl; try discriminate.
  - intros H1 H2. apply Bool.eqb_prop in H1. now subst.
  - intros H1 H2. apply Z.eqb_eq in H1. now subst.
  - intros H1 H2. apply Z.eqb_eq in H1. now subst.
  - intros H1 H2. apply Z.eqb_eq in H1. now subst.
Qed.

Lemma py_eq_field (k : string) (d d' : dict) (v : json) :
  py_eq (JObj d) (JObj d') = true -> dict_get k d = Some v ->
  exists w, dict_get k d' = Some w /\ py_eq v w = true.
Proof.
  simpl. intros H. apply andb_true_iff in H as [_ H]. revert H.
  induction d as [|[k0 v0] r IH]; simpl; [discriminate|].
  intros H Hk. apply andb_true_iff in H as [H0 Hr].
  destruct (String.eqb k k0) eqn:E.
  - apply String.eqb_eq in E. subst k0. injection Hk as ->.
    destruct (dict_get k d') as [w|]; [eauto | discriminate].
  - auto.
Qed.

Lemma other_id_not_eq (cid : Z) (x c : json) :
  other_id (JInt cid) x = true -> has_id (JInt cid) c = true ->
  py_eq x c = false.
Proof.
  intros Hx Hc. destruct (py_eq x c) eqn:E; auto. exfalso.
  unfold other_id, has_id, field in *.
  destruct x as [| | | | |d]; try discriminate.
  destruct c as [| | | | |d']; try discriminate.
  destruct (dict_get "id" d) as [v|] eqn:Hv; try discriminate.
  destruct (py_eq_field _ _ _ _ E Hv) as (w & Hw & Hvw).
  rewrite Hw in Hc. rewrite (py_eq_int_trans _ _ _ Hvw Hc) in Hx.
  discriminate.
Qed.

Lemma remove_from_found (cid : Z) (l1 l2 : list json) (c : json) (j : nat) :
  forallb (other_id (JInt cid)) l1 = true ->
  has_id (JInt cid) c = true ->
  remove_from (l1 ++ c :: l2) j (j + length l1) c = Ok (l1 ++ l2).
Proof.
  intros Hl1 Hc. revert j.
  induction l1 as [|x l1 IH]; intros j; simpl in *.
  - now rewrite Nat.add_0_r, Nat.eqb_refl.
  - apply andb_true_iff in Hl1 as [Hx Hl1].
    rewrite (other_id_not_eq _ _ _ Hx Hc).
    replace (j =? j + S (length l1))%nat with false
      by (symmetry; apply Nat.eqb_neq; lia).
    simpl. replace (j + S (length l1))%nat with (S j + length l1)%nat by lia.
    rewrite (IH Hl1). reflexivity.
Qed.

(** C6: deleting a course.  When every course of the document has
    another id the answer is 404 and nothing is written.  When [c] is
    the first course with the id, the answer is 200 and the document
    is written without [c]: the courses before it and after it stay,
    in their order. *)
Theorem delete_course_first_match (s : fs) (cid : Z) :
  (forall l,
     cours_of (document s) = Some l ->
     forallb (other_id (JInt cid)) l = true ->
     cours_controller.courses_course_id_delete cid s =
       (Ok (cours_controller.COURSE_NOT_FOUND, 404), s)) /\
  (forall l1 c l2,
     cours_of (document s) = Some (l1 ++ c :: l2) ->
     forallb (other_id (JInt cid)) l1 = true ->
     has_id (JInt cid) c = true ->
     cours_controller.courses_course_id_delete cid s =
       (Ok (message "Cours supprimé avec succès.", 200),
        saved (with_cours (document s) (l1 ++ l2)) s)).
Proof.
  split.
  - intros l Hd Hl. unfold cours_controller.courses_course_id_delete.
    unmonad.
    rewrite (cours_load _ _ Hd), (first_course_none _ _ _ Hd Hl). reflexivity.
  - intros l1 c l2 Hd Hl1 Hc.
    unfold cours_controller.courses_course_id_delete. unmonad.
    rewrite (cours_load _ _ Hd), (first_course_found _ _ _ _ _ Hd Hl1 Hc).
    cbv beta iota. cbn [deref]. rewrite (has_id_truthy _ _ Hc). simpl.
    unfold cours_of, field in Hd. unfold in_item, py_getitem, with_cours.
    destruct (document s) as [| | | | |kvs]; try discriminate.
    destruct (dict_get "cours" kvs) as [[]|]; try discriminate.
    injection Hd as ->. unmonad.
    pose proof (remove_from_found cid l1 l2 c 0 Hl1 Hc) as Hr.
    simpl in Hr. rewrite Hr. reflexivity.
Qed.

Lemma py_any_ext (p q : json -> py bool) (l : list json) :
  (forall x, p x = q x) -> py_any p l = py_any q l.
Proof.
  intros H. induction l as [|x l IH]; simpl; auto.
  rewrite H, IH. reflexivity.
Qed.

Lemma id_is_identified (v x : json) :
  identified x = true -> id_is v x = Ok (has_id v x).
Proof.
  unfold identified, id_is, has_id, field, py_getitem.
  destruct x; try discriminate.
  destruct (dict_get "id" kvs); try discriminate. reflexivity.
Qed.

Lemma other_id_identified (v x : json) :
  other_id v x = true -> identified x = true /\ has_id v x = false.
Proof.
  unfold other_id, identified, has_id.
  destruct (field "id" x); try discriminate.
  destruct (py_eq j v); try discriminate. auto.
Qed.

Lemma py_any_id_is (v : json) (l : list json) :
  forallb identified l = true ->
  py_any (id_is v) l = Ok (existsb (has_id v) l).
Proof.
  induction l as [|x l IH]; simpl; auto.
  intros H. apply andb_true_iff in H as [Hx Hl].
  rewrite (id_is_identified _ _ Hx). unmonad.
  destruct (has_id v x); simpl; auto.
Qed.

Lemma others_existsb (v : json) (l : list json) :
  forallb (other_id v) l = true ->
  forallb identified l = true /\ existsb (has_id v) l = false.
Proof.
  induction l as [|x l IH]; simpl; auto.
  intros H. apply andb_true_iff in H as [Hx Hl].
  destruct (other_id_identified _ _ Hx) as [-> ->].
  destruct (IH Hl) as [-> ->]. auto.
Qed.

(** C5: creating a course [inp] whose id is [w], in a document whose
    courses all have an id.  When some course has an id equal to [w]
    the answer is 400 and the file is not written.  When every course
    has another id the answer is 201 and the document is written with
    [inp], as it came, after the last course. *)
Theorem post_course_conflict_or_append (s : fs) (inp : dict) (w : json)
  (l : list json) :
  cours_of (document s) = Some l ->
  dict_get "id" inp = Some w ->
  (forallb identified l = true ->
   existsb (has_id w) l = true ->
   cours_controller.courses_post (JObj inp) s =
     (Ok (cours_controller.COURSE_ALREADY_EXISTS, 400), s)) /\
  (forallb (other_id w) l = true ->
   cours_controller.courses_post (JObj inp) s =
     (Ok (JObj [("message", JStr "Cours créé avec succès.");
                ("cours", JObj inp)], 201),
      saved (with_cours (document s) (l ++ [JObj inp])) s)).
Proof.
  intros Hd Hw.
  assert (Hany : forall l0,
             py_any (fun course =>
                       i ← py_getitem course "id";
                       i' ← py_get (JObj inp) "id" JNull;
                       mret (py_eq i i')) l0 = py_any (id_is w) l0).
  { intros l0. apply py_any_ext. intros x. unfold id_is, py_get.
    rewrite Hw. reflexivity. }
  unfold cours_controller.courses_post, cours_of, field in *.
  destruct (document s) as [| | | | |kvs] eqn:Hdoc; try discriminate.
  destruct (dict_get "cours" kvs) as [[]|] eqn:Hc; try discriminate.
  injection Hd as ->. split.
  - intros Hid Hex. unmonad. rewrite (cours_load_obj _ _ Hdoc), Hdoc. simpl. rewrite Hc. simpl.
    rewrite Hany, (py_any_id_is _ _ Hid), Hex. reflexivity.
  - intros Hl. destruct (others_existsb _ _ Hl) as [Hid Hex].
    unmonad. rewrite (cours_load_obj _ _ Hdoc), Hdoc. simpl. rewrite Hc. simpl.
    rewrite Hany, (py_any_id_is _ _ Hid), Hex.
    unfold in_item, py_getitem. rewrite Hc. reflexivity.
Qed.

(** ** The session endpoints *)

Lemma module_ok_seances (p : json -> bool) (m : json) :
  module_ok p m = true ->
  exists ss, (seances ← py_get m "seances" (JArr []); py_iter seances) = Ok ss
             /\ seances_of m = ss /\ forallb p ss = true.
Proof.
  unfold module_ok, seances_of, field, py_get. destruct m; try discriminate.
  unmonad. destruct (dict_get "seances" kvs) as [[]|]; try discriminate;
    simpl; eauto.
Qed.

Lemma extend_all_shaped (ms acc : list json) :
  forallb (module_ok (fun _ => true)) ms = true ->
  session_controller.extend_all ms acc = Ok (acc ++ flat_map seances_of ms).
Proof.
  revert acc. induction ms as [|m ms IH]; intros acc; simpl.
  - now rewrite app_nil_r.
  - intros H. apply andb_true_iff in H as [Hm Hms].
    destruct (module_ok_seances _ _ Hm) as (ss & Hss & -> & _).
    unmonad. destruct (py_get m "seances" (JArr [])); try discriminate.
    rewrite Hss, (IH _ Hms). now rewrite <- app_assoc.
Qed.

Lemma next_from_id_total (v : json) (l : list json) (i : nat) :
  forallb identified l = true ->
  exists r, next_from (id_is v) l i = Ok r /\
            truthy (deref r) = existsb (has_id v) l /\
            (r = None <-> existsb (has_id v) l = false).
Proof.
  revert i. induction l as [|x l IH]; intros i; simpl.
  - intros _. exists None. repeat split; auto.
  - intros H. apply andb_true_iff in H as [Hx Hl].
    rewrite (id_is_identified _ _ Hx). unmonad.
    destruct (has_id v x) eqn:E; simpl.
    + exists (Some (i, x)). simpl. rewrite (has_id_truthy _ _ E).
      repeat split; auto; discriminate.
    + apply IH; auto.
Qed.

Lemma scan_modules_total (v : json) (ms : list json) (j : nat) :
  forallb (module_ok identified) ms = true ->
  exists r, session_controller.scan_modules ms v j = Ok r /\
            truthy (deref r) = existsb (has_id v) (flat_map seances_of ms) /\
            (r = None <-> existsb (has_id v) (flat_map seances_of ms) = false).
Proof.
  revert j. induction ms as [|m ms IH]; intros j; simpl.
  - intros _. exists None. repeat split; auto.
  - intros H. apply andb_true_iff in H as [Hm Hms].
    destruct (module_ok_seances _ _ Hm) as (ss & Hss & -> & Hid).
    unmonad. destruct (py_get m "seances" (JArr [])); try discriminate.
    rewrite Hss.
    change (fun session => match py_getitem session "id" with
                           | Ok a => Ok (py_eq a v)
                           | Raise e => Raise e
                           end) with (id_is v).
    destruct (next_from_id_total v ss 0 Hid) as (r & -> & Ht & Hn).
    rewrite existsb_app. destruct r as [[k x]|].
    + exists (Some ((j, k), x)). simpl in *. rewrite <- Ht.
      destruct (truthy x) eqn:Hx; simpl.
      * repeat split; auto; discriminate.
      * symmetry in Ht. apply Hn in Ht. discriminate.
    + rewrite (proj1 Hn eq_refl). simpl. apply IH; auto.
Qed.

Lemma find_session_total (v c : json) :
  wf_course c = true ->
  exists r, session_controller.find_session_by_id c v = Ok r /\
            truthy (deref r) = existsb (has_id v) (sessions_of c) /\
            (r = None <-> existsb (has_id v) (sessions_of c) = false).
Proof.
  unfold wf_course, course_ok, session_controller.find_session_by_id,
    sessions_of, modules_of, field, py_get.
  destruct c; try discriminate. unmonad.
  destruct (dict_get "modules" kvs) as [[]|]; try discriminate; simpl.
  - apply scan_modules_total.
  - intros _. exists None. repeat split; auto.
Qed.

Lemma module_ok_others (v m : json) :
  module_ok (other_id v) m = true ->
  module_ok identified m = true /\ existsb (has_id v) (seances_of m) = false.
Proof.
  unfold module_ok, seances_of, field. destruct m; try discriminate.
  destruct (dict_get "seances" kvs) as [[]|]; try discriminate; auto.
  apply others_existsb.
Qed.

Lemma modules_ok_others (v : json) (ms : list json) :
  forallb (module_ok (other_id v)) ms = true ->
  forallb (module_ok identified) ms = true /\
  existsb (has_id v) (flat_map seances_of ms) = false.
Proof.
  induction ms as [|m ms IH]; simpl; auto.
  intros H. apply andb_true_iff in H as [Hm Hms].
  destruct (module_ok_others _ _ Hm) as [-> Hm'].
  destruct (IH Hms) as [-> Hms'].
  rewrite existsb_app, Hm', Hms'. auto.
Qed.

Lemma scan_modules_skip (v m : json) (ms : list json) (j : nat) :
  module_ok (other_id v) m = true ->
  session_controller.scan_modules (m :: ms) v j =
  session_controller.scan_modules ms v (S j).
Proof.
  intros Hm. destruct (module_ok_seances _ _ Hm) as (ss & Hss & _ & Hid).
  simpl. unmonad. destruct (py_get m "seances" (JArr [])); try discriminate.
  rewrite Hss.
  change (fun session => match py_getitem session "id" with
                         | Ok a => Ok (py_eq a v)
                         | Raise e => Raise e
                         end) with (id_is v).
  now rewrite (next_from_none (id_is v) ss 0 (others_no_match _ _ Hid)).
Qed.

Lemma scan_modules_none (v : json) (ms : list json) (j : nat) :
  forallb (module_ok (other_id v)) ms = true ->
  session_controller.scan_modules ms v j = Ok None.
Proof.
  revert j. induction ms as [|m ms IH]; intros j H; [reflexivity|].
  simpl in H. apply andb_true_iff in H as [Hm Hms].
  rewrite (scan_modules_skip _ _ _ _ Hm). now apply IH.
Qed.

Lemma scan_modules_found (v : json) (ms1 ms2 : list json) (md : dict)
  (ss1 ss2 : list json) (x : json) (j : nat) :
  forallb (module_ok (other_id v)) ms1 = true ->
  dict_get "seances" md = Some (JArr (ss1 ++ x :: ss2)) ->
  forallb (other_id v) ss1 = true ->
  has_id v x = true ->
  session_controller.scan_modules (ms1 ++ JObj md :: ms2) v j =
    Ok (Some (((j + length ms1)%nat, length ss1), x)).
Proof.
  intros Hms1 Hmd Hss1 Hx. revert j.
  induction ms1 as [|m ms1 IH]; intros j.
  - simpl. rewrite Hmd. unmonad.
    change (fun session => match py_getitem session "id" with
                           | Ok a => Ok (py_eq a v)
                           | Raise e => Raise e
                           end) with (id_is v).
    rewrite (next_from_found (id_is v) ss1 ss2 x 0).
    + simpl. now rewrite Nat.add_0_r.
    + now apply others_no_match.
    + now apply id_is_true.
  - simpl in Hms1. apply andb_true_iff in Hms1 as [Hm Hms1].
    change ((m :: ms1) ++ JObj md :: ms2) with (m :: (ms1 ++ JObj md :: ms2)).
    rewrite (scan_modules_skip _ _ _ _ Hm), (IH Hms1).
    simpl. do 4 f_equal. lia.
Qed.

(** C8: listing the sessions of a course.  When every course of the
    document has another id the answer is 404.  When [c] is the first
    course with the id, and its containers are lists where present,
    the answer is 200 with the sessions of its modules, module after
    module and each module's sessions in their order; for a course
    whose [modules] is missing or empty that is the empty list.  The
    file is never written. *)
Theorem get_sessions_flattens (s : fs) (cid : Z) :
  (forall l,
     cours_of (document s) = Some l ->
     forallb (other_id (JInt cid)) l = true ->
     session_controller.courses_course_id_sessions_get cid s =
       (Ok (session_controller.COURSE_NOT_FOUND, 404), s)) /\
  (forall l1 c l2,
     cours_of (document s) = Some (l1 ++ c :: l2) ->
     forallb (other_id (JInt cid)) l1 = true ->
     has_id (JInt cid) c = true ->
     shaped c = true ->
     session_controller.courses_course_id_sessions_get cid s =
       (Ok (JObj [("seances", JArr (flat_map seances_of (modules_of c)))],
            200), s) /\
     (field "modules" c = None \/ field "modules" c = Some (JArr []) ->
      session_controller.courses_course_id_sessions_get cid s =
        (Ok (JObj [("seances", JArr [])], 200), s))).
Proof.
  split.
  - intros l Hd Hl.
    unfold session_controller.courses_course_id_sessions_get,
      session_controller.find_course_by_id. unmonad.
    rewrite (session_load _ _ Hd), (first_course_none _ _ _ Hd Hl). reflexivity.
  - intros l1 c l2 Hd Hl1 Hc Hsh.
    assert (Hget : session_controller.courses_course_id_sessions_get cid s =
              (Ok (JObj [("seances",
                          JArr (flat_map seances_of (modules_of c)))], 200),
               s)).
    { unfold session_controller.courses_course_id_sessions_get,
        session_controller.find_course_by_id. unmonad.
      rewrite (session_load _ _ Hd), (first_course_found _ _ _ _ _ Hd Hl1 Hc).
      cbv beta iota. cbn [deref]. rewrite (has_id_truthy _ _ Hc). simpl.
      unfold shaped, course_ok, modules_of, field, py_get in *.
      destruct c as [| | | | |d]; try discriminate.
      destruct (dict_get "modules" d) as [[]|]; try discriminate; simpl.
      - now rewrite (extend_all_shaped _ [] Hsh).
      - reflexivity. }
    split; [exact Hget|].
    intros Hm. rewrite Hget. unfold modules_of.
    destruct Hm as [-> | ->]; reflexivity.
Qed.

Lemma store_session_middle (d md : dict) (ms1 ms2 ss1 ss2 : list json)
  (x x' : json) :
  dict_get "modules" d = Some (JArr (ms1 ++ JObj md :: ms2)) ->
  dict_get "seances" md = Some (JArr (ss1 ++ x :: ss2)) ->
  store_session (JObj d) (length ms1) (length ss1) x' =
  JObj (dict_set "modules"
          (JArr (ms1 ++ JObj (dict_set "seances"
                                (JArr (ss1 ++ x' :: ss2)) md) :: ms2)) d).
Proof.
  intros Hd Hmd. unfold store_session. rewrite Hd.
  rewrite (list_lookup_middle ms1 ms2 (JObj md) (length ms1) eq_refl).
  rewrite Hmd. now rewrite !insert_middle.
Qed.

Lemma find_session_none (v c : json) :
  course_ok (other_id v) c = true ->
  session_controller.find_session_by_id c v = Ok None.
Proof.
  unfold course_ok, session_controller.find_session_by_id, py_get.
  destruct c; try discriminate. unmonad.
  destruct (dict_get "modules" kvs) as [[]|]; try discriminate; simpl; auto.
  apply scan_modules_none.
Qed.

(** C9: updating a session.  The answer is 404, and nothing is
    written, when every course of the document has another id, and
    when the course is found and every session of its modules has
    another id.  When the session [sd] is the first with the id,
    modules taken in order and the sessions of each in order, whatever
    module holds it, the answer is 200 with the merged session and the
    document is written with the merged session in the place of [sd];
    the merge is the one of the course update.  The keys of the patch
    are distinct. *)
Theorem put_session_first_match (s : fs) (cid sid : Z) (patch : dict) :
  (forall l,
     cours_of (document s) = Some l ->
     forallb (other_id (JInt cid)) l = true ->
     session_controller.courses_course_id_sessions_session_id_put
       cid sid patch s =
       (Ok (session_controller.COURSE_NOT_FOUND, 404), s)) /\
  (forall l1 c l2,
     cours_of (document s) = Some (l1 ++ c :: l2) ->
     forallb (other_id (JInt cid)) l1 = true ->
     has_id (JInt cid) c = true ->
     course_ok (other_id (JInt sid)) c = true ->
     session_controller.courses_course_id_sessions_session_id_put
       cid sid patch s =
       (Ok (session_controller.SESSION_NOT_FOUND, 404), s)) /\
  (forall l1 d l2 ms1 md ms2 ss1 sd ss2,
     cours_of (document s) = Some (l1 ++ JObj d :: l2) ->
     forallb (other_id (JInt cid)) l1 = true ->
     has_id (JInt cid) (JObj d) = true ->
     dict_get "modules" d = Some (JArr (ms1 ++ JObj md :: ms2)) ->
     forallb (module_ok (other_id (JInt sid))) ms1 = true ->
     dict_get "seances" md = Some (JArr (ss1 ++ JObj sd :: ss2)) ->
     forallb (other_id (JInt sid)) ss1 = true ->
     has_id (JInt sid) (JObj sd) = true ->
     NoDup patch.*1 ->
     session_controller.courses_course_id_sessions_session_id_put
       cid sid patch s =
       (Ok (JObj [("message",
                   JStr session_controller.SESSION_UPDATED_SUCCESS);
                  ("seance", JObj (dict_update sd patch))], 200),
        saved (with_cours (document s)
                 (l1 ++ JObj (dict_set "modules"
                                (JArr (ms1 ++
                                       JObj (dict_set "seances"
                                               (JArr (ss1 ++
                                                      JObj (dict_update sd patch)
                                                      :: ss2)) md)
                                       :: ms2)) d) :: l2)) s) /\
     forall k,
       dict_get k (dict_update sd patch) =
       match dict_get k patch with
       | Some v => Some v
       | None => dict_get k sd
       end).
Proof.
  unfold session_controller.courses_course_id_sessions_session_id_put,
    session_controller.find_course_by_id.
  split; [|split].
  - intros l Hd Hl. unmonad.
    rewrite (session_load _ _ Hd), (first_course_none _ _ _ Hd Hl). reflexivity.
  - intros l1 c l2 Hd Hl1 Hc Hok. unmonad.
    rewrite (session_load _ _ Hd), (first_course_found _ _ _ _ _ Hd Hl1 Hc).
    cbv beta iota. cbn [deref]. rewrite (has_id_truthy _ _ Hc).
    cbn [negb]. cbv iota. rewrite (find_session_none _ _ Hok). reflexivity.
  - intros l1 d l2 ms1 md ms2 ss1 sd ss2 Hd Hl1 Hc Hm Hms1 Hmd Hss1 Hs Hnd.
    split; [|intros k; now apply dict_get_update].
    unmonad.
    rewrite (session_load _ _ Hd), (first_course_found _ _ _ _ _ Hd Hl1 Hc).
    cbv beta iota. cbn [deref]. rewrite (has_id_truthy _ _ Hc).
    cbn [negb]. cbv iota.
    assert (Hfind : session_controller.find_session_by_id (JObj d)
                      (JInt sid) =
                    Ok (Some ((length ms1, length ss1), JObj sd))).
    { unfold session_controller.find_session_by_id, py_get. unmonad.
      rewrite Hm. simpl.
      apply (scan_modules_found (JInt sid) ms1 ms2 md ss1 ss2 (JObj sd) 0);
        auto. }
    rewrite Hfind. cbv beta iota. cbn [deref].
    rewrite (has_id_truthy _ _ Hs). cbn [negb py_update]. cbv iota beta.
    rewrite (store_session_middle _ _ _ _ _ _ _ _ Hm Hmd).
    cbn [store_found]. rewrite (store_course_middle _ _ _ _ _ Hd).
    reflexivity.
Qed.

(** The conflict test of the creation, [any(... for module in
    course['modules'])], on a well-formed course: with an input that
    has the id [w] it tells whether a session of the course has the
    id; with an input without id it is never true. *)
Lemma any_session_taken (c input : json) (ms : list json) :
  wf_course c = true ->
  field "modules" c = Some (JArr ms) ->
  (forall w, field "id" input = Some w ->
             py_any (fun _module =>
                       i ← py_getitem input "id";
                       s ← session_controller.find_session_by_id c i;
                       mret (truthy (deref s))) ms =
             Ok (existsb (has_id w) (sessions_of c))) /\
  (field "id" input = None ->
   py_any (fun _module =>
             i ← py_getitem input "id";
             s ← session_controller.find_session_by_id c i;
             mret (truthy (deref s))) ms <> Ok true).
Proof.
  intros Hwf Hms. split.
  - intros w Hw.
    destruct (find_session_total w c Hwf) as (r & Hr & Ht & _).
    assert (Hp : (i ← py_getitem input "id";
                  s ← session_controller.find_session_by_id c i;
                  mret (truthy (deref s))) =
                 Ok (existsb (has_id w) (sessions_of c))).
    { unfold py_getitem, field in *. destruct input; try discriminate.
      rewrite Hw. unmonad. rewrite Hr. now rewrite Ht. }
    destruct ms as [|m ms]; simpl.
    + unfold sessions_of, modules_of. now rewrite Hms.
    + rewrite Hp. unmonad.
      destruct (existsb (has_id w) (sessions_of c)) eqn:E; auto.
      clear Hms. induction ms as [|m' ms IH]; simpl; auto.
  - intros Hnone.
    assert (Hp : exists e, (i ← py_getitem input "id";
                            s ← session_controller.find_session_by_id c i;
                            mret (truthy (deref s))) = Raise e).
    { unfold py_getitem, field in *.
      destruct input; unmonad; eauto. rewrite Hnone. eauto. }
    destruct Hp as [e Hp]. destruct ms as [|m ms]; simpl.
    + discriminate.
    + rewrite Hp. discriminate.
Qed.

(** C2: creating a session in the first course [c] with the id, a
    course whose containers are lists and whose sessions all have an
    id.  The answer has status 400 exactly when the input has an id and
    a session in a module of [c] has an id equal to it; and with
    status 400 the file is not written. *)
Theorem post_session_conflict_iff (s : fs) (cid : Z) (input : json)
  (l1 l2 : list json) (c : json) :
  cours_of (document s) = Some (l1 ++ c :: l2) ->
  forallb (other_id (JInt cid)) l1 = true ->
  has_id (JInt cid) c = true ->
  wf_course c = true ->
  (status (session_controller.courses_course_id_sessions_post cid input s).1
     = Some 400 <->
   exists w, field "id" input = Some w /\
             existsb (has_id w) (sessions_of c) = true) /\
  (status (session_controller.courses_course_id_sessions_post cid input s).1
     = Some 400 ->
   session_controller.courses_course_id_sessions_post cid input s =
     (Ok (session_controller.SESSION_ALREADY_EXISTS, 400), s)).
Proof.
  intros Hd Hl1 Hc Hwf.
  remember (session_controller.courses_course_id_sessions_post cid input s)
    as r eqn:Hr.
  unfold session_controller.courses_course_id_sessions_post,
    session_controller.find_course_by_id in Hr. unmonad.
  rewrite (session_load _ _ Hd), (first_course_found _ _ _ _ _ Hd Hl1 Hc) in Hr.
  cbv beta iota in Hr. cbn [deref] in Hr.
  rewrite (has_id_truthy _ _ Hc) in Hr. cbn [negb] in Hr. cbv iota in Hr.
  destruct (has_id_obj _ _ Hc) as [d ->].
  destruct (dict_get "modules" d) as [mods|] eqn:Hm.
  2:{ unfold py_getitem in Hr. rewrite Hm in Hr. subst r. simpl.
      unfold sessions_of, modules_of, field. rewrite Hm. simpl.
      split; [split|]; try discriminate. intros (w & _ & ?). discriminate. }
  assert (exists ms, mods = JArr ms) as [ms ->].
  { unfold wf_course, course_ok in Hwf. rewrite Hm in Hwf.
    destruct mods; try discriminate. eauto. }
  unfold py_getitem at 1 in Hr. rewrite Hm in Hr. cbn [py_iter] in Hr.
  destruct (any_session_taken (JObj d) input ms Hwf Hm) as [Hsome Hnone].
  unmonad.
  match type of Hr with
  | context [py_any ?p ms] => destruct (py_any p ms) as [[|]|] eqn:Hany
  end.
  - subst r. simpl. split; [split|]; auto. intros _.
    destruct (field "id" input) as [w|] eqn:Hw.
    + exists w. split; auto. specialize (Hsome w eq_refl). congruence.
    + now destruct (Hnone eq_refl).
  - assert (Hst : status r.1 <> Some 400).
    { subst r.
      repeat match goal with
             | |- context [match ?x with Ok _ => _ | Raise _ => _ end] =>
                 destruct x
             end; simpl; discriminate. }
    split; [split|]; try (intros H; now destruct (Hst H)).
    intros (w & Hw & Hex). specialize (Hsome w Hw). congruence.
  - subst r. simpl. split; [split|]; try discriminate.
    intros (w & Hw & Hex). specialize (Hsome w Hw). congruence.
Qed.

(** ** What a successful change leaves alone *)

Lemma store_found_rewritten (cid : Z) (s : fs) (n : nat) (c c' : json) :
  first_course (document s) cid = Ok (Some (n, c)) ->
  course_rewritten cid s
    {| data_json := Content (store_course (document s) n c');
       writes := S (writes s) |} c c'.
Proof.
  intros Hf. apply first_course_inv in Hf as (l1 & l2 & Hd & -> & Hl1 & Hc).
  exists l1, l2. simpl. rewrite (store_course_middle _ _ _ _ _ Hd).
  repeat split; auto. unfold document at 1. simpl.
  apply (cours_of_with_cours _ _ _ Hd).
Qed.

Ltac split_results :=
  repeat match goal with
         | H : context [match ?x with Ok _ => _ | Raise _ => _ end] |- _ =>
             destruct x eqn:?; try discriminate
         | H : context [if ?b then _ else _] |- _ =>
             destruct b eqn:?; try discriminate
         end.

(** C10: a successful update of a course, deletion of a course,
    creation of a session or update of a session writes a document in
    which only the first course with the id of the request differs (or
    is gone, for the deletion): the courses before it and after it are
    the same objects in the same order. *)
Theorem success_touches_one_course (s s' : fs) (cid : Z) (body : json) :
  (forall patch,
     cours_controller.courses_course_id_put cid patch s =
       (Ok (body, 200), s') ->
     exists c c', course_rewritten cid s s' c c') /\
  (cours_controller.courses_course_id_delete cid s = (Ok (body, 200), s') ->
   exists c, course_removed cid s s' c) /\
  (forall input,
     session_controller.courses_course_id_sessions_post cid input s =
       (Ok (body, 201), s') ->
     exists c c', course_rewritten cid s s' c c') /\
  (forall sid patch,
     session_controller.courses_course_id_sessions_session_id_put
       cid sid patch s = (Ok (body, 200), s') ->
     exists c c', course_rewritten cid s s' c c').
Proof.
  repeat split.
  - intros patch.
    unfold cours_controller.courses_course_id_put. unmonad.
    destruct (load_cases s) as [[Hload _]|(e & Hload & _)]; rewrite Hload;
      [|simpl; discriminate].
    destruct (first_course (document s) cid) as [[[n c]|]|] eqn:Hf;
      simpl; try discriminate.
    destruct (truthy c); simpl; try discriminate.
    intros H. split_results. injection H as _ <-.
    eexists _, _. apply store_found_rewritten. eassumption.
  - unfold cours_controller.courses_course_id_delete. unmonad.
    destruct (load_cases s) as [[Hload _]|(e & Hload & _)]; rewrite Hload;
      [|simpl; discriminate].
    destruct (first_course (document s) cid) as [[[n c]|]|] eqn:Hf;
      simpl; try discriminate.
    destruct (truthy c); simpl; try discriminate.
    apply first_course_inv in Hf as (l1 & l2 & Hd & -> & Hl1 & Hc).
    pose proof (remove_from_found cid l1 l2 c 0 Hl1 Hc) as Hr.
    simpl in Hr. unfold cours_of, field in Hd. unfold in_item, py_getitem.
    destruct (document s) as [| | | | |kvs] eqn:Hdoc; try discriminate.
    destruct (dict_get "cours" kvs) as [[]|] eqn:Hk; try discriminate.
    injection Hd as ->. unmonad. rewrite Hr.
    intros [= _ <-]. exists c, l1, l2. rewrite Hdoc. repeat split; auto.
    + unfold cours_of, field. now rewrite Hk.
    + unfold document, cours_of, field. simpl.
      now rewrite dict_get_set_eq.
  - intros input.
    unfold session_controller.courses_course_id_sessions_post,
      session_controller.find_course_by_id. unmonad.
    destruct (load_cases s) as [[_ Hload]|(e & _ & Hload & _)]; rewrite Hload;
      [|simpl; discriminate].
    destruct (first_course (document s) cid) as [[[n c]|]|] eqn:Hf;
      simpl; try discriminate.
    destruct (truthy c); simpl; try discriminate.
    intros H; split_results; injection H as _ <-;
      eexists _, _; apply store_found_rewritten; eassumption.
  - intros sid patch.
    unfold session_controller.courses_course_id_sessions_session_id_put,
      session_controller.find_course_by_id. unmonad.
    destruct (load_cases s) as [[_ Hload]|(e & _ & Hload & _)]; rewrite Hload;
      [|simpl; discriminate].
    destruct (first_course (document s) cid) as [[[n c]|]|] eqn:Hf;
      simpl; try discriminate.
    destruct (truthy c); simpl; try discriminate.
    intros H; split_results; injection H as _ <-;
      eexists _, _; apply store_found_rewritten; eassumption.
Qed.

(** ** Where a created session goes *)

Lemma dict_set_set (k : string) (v v' : json) (d : dict) :
  dict_set k v (dict_set k v' d) = dict_set k v d.
Proof.
  induction d as [|[k0 v0] r IH]; simpl.
  - now rewrite String.eqb_refl.
  - destruct (String.eqb k k0) eqn:E; simpl; rewrite E; auto.
    now rewrite IH.
Qed.

Lemma falsy_no_modules (d : dict) :
  truthy (default JNull (dict_get "modules" d)) = false ->
  modules_of (JObj d) = [].
Proof.
  unfold modules_of, field.
  destruct (dict_get "modules" d) as [[| | | | [|]|]|]; simpl; auto.
  discriminate.
Qed.

(** The three statements after the conflict test, read backwards. *)
Lemma place_inv (c input a2 a3 a4 : json) :
  py_get c "modules" JNull = Ok a2 ->
  (if negb (truthy a2)
   then py_setitem c "modules" (JArr [session_controller.new_module])
   else Ok c) = Ok a3 ->
  in_item "modules"
    (in_first (in_item "seances" (fun ss => py_append ss input))) a3 = Ok a4 ->
  exists d ms', c = JObj d /\
                a4 = JObj (dict_set "modules" (JArr ms') d) /\
                placed d input ms'.
Proof.
  unfold py_get. destruct c as [| | | | |d]; try discriminate.
  intros [= <-] H3 H4. exists d.
  destruct (truthy (default JNull (dict_get "modules" d))) eqn:Ht;
    simpl in H3; injection H3 as <-.
  - unfold in_item, py_getitem in H4. unmonad.
    destruct (dict_get "modules" d) as [mods|] eqn:Hm; try discriminate.
    destruct mods as [| | | s0| [|x r] |]; simpl in H4; try discriminate.
    + unfold chars in H4.
      destruct (code_points s0); simpl in H4; discriminate.
    + destruct x as [| | | | |m0]; try discriminate.
      destruct (dict_get "seances" m0) as [[| | | |ss|]|] eqn:Hs;
        simpl in H4; try discriminate.
      injection H4 as <-. eexists. do 2 (split; [reflexivity|]).
      right. exists m0, r, ss. auto.
  - unfold in_item, py_getitem in H4. unmonad.
    rewrite dict_get_set_eq in H4. simpl in H4. injection H4 as <-.
    rewrite dict_set_set. eexists. do 2 (split; [reflexivity|]).
    left. split; auto. now apply falsy_no_modules.
Qed.

Lemma post_session_success_inv (s s' : fs) (cid : Z) (input body : json) :
  session_controller.courses_course_id_sessions_post cid input s =
    (Ok (body, 201), s') ->
  exists d ms',
    course_rewritten cid s s'
      (JObj d) (JObj (dict_set "modules" (JArr ms') d)) /\
    placed d input ms'.
Proof.
  unfold session_controller.courses_course_id_sessions_post,
    session_controller.find_course_by_id. unmonad.
  destruct (load_cases s) as [[_ Hload]|(e & _ & Hload & _)]; rewrite Hload;
    [|simpl; discriminate].
  destruct (first_course (document s) cid) as [[[n c]|]|] eqn:Hf;
    simpl; try discriminate.
  destruct (truthy c); simpl; try discriminate.
  destruct (py_getitem c "modules") as [mods|]; try discriminate.
  destruct (py_iter mods) as [ms|]; try discriminate.
  destruct (py_any _ ms) as [[|]|]; try discriminate.
  destruct (py_get c "modules" JNull) as [a2|] eqn:H2; try discriminate.
  destruct (if negb (truthy a2) then _ else _) as [a3|] eqn:H3;
    try discriminate.
  destruct (in_item "modules" _ a3) as [a4|] eqn:H4; try discriminate.
  intros [= _ <-].
  destruct (place_inv _ _ _ _ _ H2 H3 H4) as (d & ms' & -> & -> & Hp).
  exists d, ms'. split; auto.
  now apply store_found_rewritten.
Qed.

Lemma first_match_unique (v : json) (l1 l2 l1' l2' : list json)
  (c c' : json) :
  l1 ++ c :: l2 = l1' ++ c' :: l2' ->
  forallb (other_id v) l1 = true -> has_id v c = true ->
  forallb (other_id v) l1' = true -> has_id v c' = true ->
  l1 = l1' /\ c = c' /\ l2 = l2'.
Proof.
  revert l1'. induction l1 as [|x l1 IH]; intros [|x' l1']; simpl;
    intros He Hl1 Hc Hl1' Hc'.
  - injection He as -> ->. auto.
  - injection He as <- _. apply andb_true_iff in Hl1' as [Hx _].
    apply other_id_identified in Hx as [_ Hx]. congruence.
  - injection He as -> _. apply andb_true_iff in Hl1 as [Hx _].
    apply other_id_identified in Hx as [_ Hx]. congruence.
  - injection He as <- He. apply andb_true_iff in Hl1 as [_ Hl1].
    apply andb_true_iff in Hl1' as [_ Hl1'].
    destruct (IH _ He Hl1 Hc Hl1' Hc') as (-> & -> & ->). auto.
Qed.

Lemma py_getitem_obj (d : dict) (k : string) (v : json) :
  dict_get k d = Some v -> py_getitem (JObj d) k = Ok v.
Proof. unfold py_getitem. now intros ->. Qed.

Lemma post_session_into_first (s : fs) (cid : Z) (input w : json)
  (l1 l2 : list json) (d m0 : dict) (rest ss : list json) :
  cours_of (document s) = Some (l1 ++ JObj d :: l2) ->
  forallb (other_id (JInt cid)) l1 = true ->
  has_id (JInt cid) (JObj d) = true ->
  wf_course (JObj d) = true ->
  dict_get "modules" d = Some (JArr (JObj m0 :: rest)) ->
  dict_get "seances" m0 = Some (JArr ss) ->
  field "id" input = Some w ->
  existsb (has_id w) (sessions_of (JObj d)) = false ->
  session_controller.courses_course_id_sessions_post cid input s =
    (Ok (JObj [("message", JStr session_controller.SESSION_CREATED_SUCCESS);
               ("seance", input)], 201),
     saved (with_cours (document s)
              (l1 ++ JObj (dict_set "modules"
                             (JArr (JObj (dict_set "seances"
                                            (JArr (ss ++ [input])) m0)
                                    :: rest)) d) :: l2)) s).
Proof.
  intros Hd Hl1 Hc Hwf Hm Hs Hw Hex.
  unfold session_controller.courses_course_id_sessions_post,
    session_controller.find_course_by_id. unmonad.
  destruct (any_session_taken (JObj d) input _ Hwf Hm) as [Hany _].
  specialize (Hany w Hw). rewrite Hex in Hany.
  rewrite (session_load _ _ Hd), (first_course_found _ _ _ _ _ Hd Hl1 Hc).
  cbv beta iota. cbn [deref]. rewrite (has_id_truthy _ _ Hc).
  cbn [negb]. cbv iota.
  rewrite (py_getitem_obj _ _ _ Hm). cbn [py_iter]. cbv iota beta.
  match goal with
  | |- context [py_any ?p ?ms] =>
      replace (py_any p ms) with (Ok false : py bool)
        by (symmetry; exact Hany)
  end.
  cbv iota beta.
  unfold py_get, in_item. rewrite Hm. cbn [default from_option id truthy negb].
  cbv iota beta. unmonad. rewrite Hm. simpl. rewrite Hs. simpl.
  rewrite (store_course_middle _ _ _ _ _ Hd). reflexivity.
Qed.

Lemma post_session_new_module (s : fs) (cid : Z) (input : json)
  (l1 l2 : list json) (d : dict) :
  cours_of (document s) = Some (l1 ++ JObj d :: l2) ->
  forallb (other_id (JInt cid)) l1 = true ->
  has_id (JInt cid) (JObj d) = true ->
  dict_get "modules" d = Some (JArr []) ->
  session_controller.courses_course_id_sessions_post cid input s =
    (Ok (JObj [("message", JStr session_controller.SESSION_CREATED_SUCCESS);
               ("seance", input)], 201),
     saved (with_cours (document s)
              (l1 ++ JObj (dict_set "modules"
                             (JArr [JObj [("id", JStr "module_1");
                                          ("titre", JStr "Nouveau module");
                                          ("seances", JArr [input])]])
                             d) :: l2)) s).
Proof.
  intros Hd Hl1 Hc Hm.
  unfold session_controller.courses_course_id_sessions_post,
    session_controller.find_course_by_id. unmonad.
  rewrite (session_load _ _ Hd), (first_course_found _ _ _ _ _ Hd Hl1 Hc).
  cbv beta iota. cbn [deref]. rewrite (has_id_truthy _ _ Hc).
  cbn [negb]. cbv iota.
  rewrite (py_getitem_obj _ _ _ Hm). simpl.
  unfold in_item, py_getitem. rewrite Hm. simpl. rewrite dict_get_set_eq.
  simpl. rewrite dict_set_set.
  rewrite (store_course_middle _ _ _ _ _ Hd). reflexivity.
Qed.

(** C4: where a created session goes.  In a course whose [modules] is
    the empty list the creation succeeds and the course gets exactly
    one module, with the fixed id and title and the session alone in
    it.  In a well-formed course with modules, whose first module has
    a list of sessions, and for an input whose id no session of the
    course has, the creation succeeds and the session is added after
    the sessions of the first module, the other modules staying as
    they were.  Whatever the document, a creation that succeeds
    rewrites the first course with the id and nothing else, and the
    session is [placed]: in the one new module when the course had no
    module, at the end of the first module otherwise.  A second
    creation that succeeds on the same course finds that first
    module, whose sessions end with the first session, and adds the
    second one after it; no module is added. *)
Theorem post_session_first_module (s : fs) (cid : Z) (input : json) :
  (forall l1 d l2,
     cours_of (document s) = Some (l1 ++ JObj d :: l2) ->
     forallb (other_id (JInt cid)) l1 = true ->
     has_id (JInt cid) (JObj d) = true ->
     dict_get "modules" d = Some (JArr []) ->
     session_controller.courses_course_id_sessions_post cid input s =
       (Ok (JObj [("message",
                   JStr session_controller.SESSION_CREATED_SUCCESS);
                  ("seance", input)], 201),
        saved (with_cours (document s)
                 (l1 ++ JObj (dict_set "modules"
                                (JArr [JObj [("id", JStr "module_1");
                                             ("titre", JStr "Nouveau module");
                                             ("seances", JArr [input])]])
                                d) :: l2)) s)) /\
  (forall l1 d l2 m0 rest ss w,
     cours_of (document s) = Some (l1 ++ JObj d :: l2) ->
     forallb (other_id (JInt cid)) l1 = true ->
     has_id (JInt cid) (JObj d) = true ->
     wf_course (JObj d) = true ->
     dict_get "modules" d = Some (JArr (JObj m0 :: rest)) ->
     dict_get "seances" m0 = Some (JArr ss) ->
     field "id" input = Some w ->
     existsb (has_id w) (sessions_of (JObj d)) = false ->
     session_controller.courses_course_id_sessions_post cid input s =
       (Ok (JObj [("message",
                   JStr session_controller.SESSION_CREATED_SUCCESS);
                  ("seance", input)], 201),
        saved (with_cours (document s)
                 (l1 ++ JObj (dict_set "modules"
                                (JArr (JObj (dict_set "seances"
                                               (JArr (ss ++ [input])) m0)
                                       :: rest)) d) :: l2)) s)) /\
  (forall b1 s1,
     session_controller.courses_course_id_sessions_post cid input s =
       (Ok (b1, 201), s1) ->
     (exists d ms',
        course_rewritten cid s s1
          (JObj d) (JObj (dict_set "modules" (JArr ms') d)) /\
        placed d input ms') /\
     (forall input2 b2 s2,
        session_controller.courses_course_id_sessions_post cid input2 s1 =
          (Ok (b2, 201), s2) ->
        exists d md rest ss,
          dict_get "modules" d = Some (JArr (JObj md :: rest)) /\
          dict_get "seances" md = Some (JArr (ss ++ [input])) /\
          course_rewritten cid s1 s2
            (JObj d)
            (JObj (dict_set "modules"
                     (JArr (JObj (dict_set "seances"
                                    (JArr (ss ++ [input; input2])) md)
                            :: rest))
                     d)))).
Proof.
  split; [|split].
  - intros l1 d l2. apply post_session_new_module.
  - intros l1 d l2 m0 rest ss w. apply post_session_into_first.
  - intros b1 s1 H1.
    pose proof (post_session_success_inv _ _ _ _ _ H1) as Hinv1.
    split; [exact Hinv1|]. intros input2 b2 s2 H2.
    destruct Hinv1 as (d0 & ms' & Hrw1 & Hp1).
    destruct (post_session_success_inv _ _ _ _ _ H2)
      as (dx & ms'' & Hrw2 & Hp2).
    destruct Hrw1 as (l1 & l2 & Hd0 & Hl1 & Hc0 & _ & Hd1).
    pose proof Hrw2 as (l1x & l2x & Hdx & Hl1x & Hcx & _ & _).
    assert (Hc1 : has_id (JInt cid)
                    (JObj (dict_set "modules" (JArr ms') d0)) = true).
    { unfold has_id, field in *. now rewrite dict_get_set_ne. }
    rewrite Hd1 in Hdx. injection Hdx as Hdx.
    destruct (first_match_unique _ _ _ _ _ _ _ Hdx Hl1 Hc1 Hl1x Hcx)
      as (_ & Hdd & _).
    injection Hdd as <-.
    assert (Hm1 : dict_get "modules" (dict_set "modules" (JArr ms') d0) =
                  Some (JArr ms')) by apply dict_get_set_eq.
    assert (Hfirst : exists md rest ss,
               ms' = JObj md :: rest /\
               dict_get "seances" md = Some (JArr (ss ++ [input]))).
    { destruct Hp1 as [[_ ->] | (m0 & rest & ss & _ & _ & ->)].
      - eexists _, [], []. split; reflexivity.
      - eexists _, rest, ss. split; [reflexivity|].
        apply dict_get_set_eq. }
    destruct Hfirst as (md & rest & ss & -> & Hss).
    exists (dict_set "modules" (JArr (JObj md :: rest)) d0), md, rest, ss.
    split; [exact Hm1|]. split; [exact Hss|].
    destruct Hp2 as [[Hno _] | (m0 & rest' & ss' & Hm & Hs & ->)].
    + unfold modules_of, field in Hno. rewrite Hm1 in Hno. discriminate.
    + rewrite Hm1 in Hm. injection Hm as <- <-.
      rewrite Hss in Hs. injection Hs as <-.
      rewrite <- app_assoc in Hrw2. exact Hrw2.
Qed.

(** ** The containers a creation needs *)

(** C1: the creation of a session does not take a missing container
    for an empty one.  On a course without [modules] it raises
    [KeyError] where the same course with [modules: []] gets the
    session; on a course whose first module has no [seances] it raises
    [KeyError] where the same module with [seances: []] gets the
    session.  Nothing is written when it raises.  The listing and the
    update of a session answer the same on the two shapes. *)
Theorem post_session_needs_containers :
  session_controller.courses_course_id_sessions_post 1 (sample.seance 5)
    (sample.disk [sample.algebra]) =
    (Raise KeyError, sample.disk [sample.algebra]) /\
  status (session_controller.courses_course_id_sessions_post 1
            (sample.seance 5) (sample.disk [sample.algebra_empty])).1 =
    Some 201 /\
  session_controller.courses_course_id_sessions_post 2 (sample.seance 5)
    (sample.disk [sample.logic]) =
    (Raise KeyError, sample.disk [sample.logic]) /\
  status (session_controller.courses_course_id_sessions_post 2
            (sample.seance 5) (sample.disk [sample.logic_empty])).1 =
    Some 201 /\
  (session_controller.courses_course_id_sessions_get 1
     (sample.disk [sample.algebra])).1 =
  (session_controller.courses_course_id_sessions_get 1
     (sample.disk [sample.algebra_empty])).1 /\
  (session_controller.courses_course_id_sessions_get 2
     (sample.disk [sample.logic])).1 =
  (session_controller.courses_course_id_sessions_get 2
     (sample.disk [sample.logic_empty])).1 /\
  (session_controller.courses_course_id_sessions_session_id_put 1 8 []
     (sample.disk [sample.algebra])).1 =
  (session_controller.courses_course_id_sessions_session_id_put 1 8 []
     (sample.disk [sample.algebra_empty])).1 /\
  (session_controller.courses_course_id_sessions_session_id_put 2 8 []
     (sample.disk [sample.logic])).1 =
  (session_controller.courses_course_id_sessions_session_id_put 2 8 []
     (sample.disk [sample.logic_empty])).1.
Proof. repeat split; vm_compute; reflexivity. Qed.

(** ** The theorems on the sample documents *)

Lemma load_data_catches_decode_error_only_witness :
  cours_controller.load_data (mk_fs Corrupt 0) =
    (Ok (JObj [("cours", JArr [])]), mk_fs Corrupt 0) /\
  session_controller.load_data (mk_fs Missing 0) =
    (Ok (JObj [("cours", JArr [])]), mk_fs Missing 0) /\
  cours_controller.load_data (mk_fs (Unreadable UnicodeDecodeError) 0) =
    (Raise UnicodeDecodeError, mk_fs (Unreadable UnicodeDecodeError) 0) /\
  cours_controller.courses_get (mk_fs (Unreadable ValueError) 0) =
    (Raise ValueError, mk_fs (Unreadable ValueError) 0).
Proof.
  split; [|split; [|split]].
  - exact (proj1 (proj1 (load_data_catches_decode_error_only
                           (mk_fs Corrupt 0)) (or_intror eq_refl))).
  - exact (proj1 (proj2 (proj1 (load_data_catches_decode_error_only
                                  (mk_fs Missing 0)) (or_introl eq_refl)))).
  - refine (proj1 (proj2 (load_data_catches_decode_error_only
                            (mk_fs (Unreadable UnicodeDecodeError) 0))
                     UnicodeDecodeError eq_refl _)).
    discriminate.
  - refine (proj1 (proj2 (proj2 (proj2
             (load_data_catches_decode_error_only
                (mk_fs (Unreadable ValueError) 0))
             ValueError eq_refl _)))).
    discriminate.
Defined.

Lemma put_course_shallow_merge_witness :
  cours_controller.courses_course_id_put 1 [("title", JStr "B")]
    (sample.disk [sample.physics; sample.algebra; sample.logic]) =
    (Ok (JObj [("message", JStr "Cours mis à jour avec succès.");
               ("cours", JObj [("id", JInt 1); ("title", JStr "B")])], 200),
     sample.disk1 [sample.physics;
                   JObj [("id", JInt 1); ("title", JStr "B")];
                   sample.logic]) /\
  cours_controller.courses_course_id_put 4 [("title", JStr "B")]
    (sample.disk [sample.physics; sample.algebra; sample.logic]) =
    (Ok (cours_controller.COURSE_NOT_FOUND, 404),
     sample.disk [sample.physics; sample.algebra; sample.logic]).
Proof.
  split.
  - exact (proj1 (proj2 (put_course_shallow_merge
                           (sample.disk [sample.physics; sample.algebra;
                                         sample.logic])
                           1 [("title", JStr "B")])
                    [sample.physics] [("id", JInt 1); ("title", JStr "A")]
                    [sample.logic] eq_refl eq_refl eq_refl
                    (NoDup_singleton "title"))).
  - exact (proj1 (put_course_shallow_merge
                    (sample.disk [sample.physics; sample.algebra;
                                  sample.logic])
                    4 [("title", JStr "B")])
             [sample.physics; sample.algebra; sample.logic]
             eq_refl eq_refl).
Defined.

Lemma delete_course_first_match_witness :
  cours_controller.courses_course_id_delete 1
    (sample.disk [sample.physics; sample.algebra; sample.logic;
                  sample.algebra_empty]) =
    (Ok (message "Cours supprimé avec succès.", 200),
     sample.disk1 [sample.physics; sample.logic; sample.algebra_empty]) /\
  cours_controller.courses_course_id_delete 4
    (sample.disk [sample.physics; sample.algebra]) =
    (Ok (cours_controller.COURSE_NOT_FOUND, 404),
     sample.disk [sample.physics; sample.algebra]).
Proof.
  split.
  - exact (proj2 (delete_course_first_match
                    (sample.disk [sample.physics; sample.algebra;
                                  sample.logic; sample.algebra_empty]) 1)
             [sample.physics] sample.algebra
             [sample.logic; sample.algebra_empty] eq_refl eq_refl eq_refl).
  - exact (proj1 (delete_course_first_match
                    (sample.disk [sample.physics; sample.algebra]) 4)
             [sample.physics; sample.algebra] eq_refl eq_refl).
Defined.

Lemma post_course_conflict_or_append_witness :
  cours_controller.courses_post sample.physics
    (sample.disk [sample.algebra; sample.physics]) =
    (Ok (cours_controller.COURSE_ALREADY_EXISTS, 400),
     sample.disk [sample.algebra; sample.physics]) /\
  cours_controller.courses_post sample.physics
    (sample.disk [sample.algebra; sample.logic]) =
    (Ok (JObj [("message", JStr "Cours créé avec succès.");
               ("cours", sample.physics)], 201),
     sample.disk1 [sample.algebra; sample.logic; sample.physics]).
Proof.
  split.
  - exact (proj1 (post_course_conflict_or_append
                    (sample.disk [sample.algebra; sample.physics])
                    [("id", JInt 3)] (JInt 3)
                    [sample.algebra; sample.physics] eq_refl eq_refl)
             eq_refl eq_refl).
  - exact (proj2 (post_course_conflict_or_append
                    (sample.disk [sample.algebra; sample.logic])
                    [("id", JInt 3)] (JInt 3)
                    [sample.algebra; sample.logic] eq_refl eq_refl)
             eq_refl).
Defined.

Lemma get_sessions_flattens_witness :
  session_controller.courses_course_id_sessions_get 2
    (sample.disk [sample.algebra; sample.logic]) =
    (Ok (JObj [("seances", JArr [sample.seance 7; sample.seance 8])], 200),
     sample.disk [sample.algebra; sample.logic]) /\
  session_controller.courses_course_id_sessions_get 1
    (sample.disk [sample.algebra; sample.logic]) =
    (Ok (JObj [("seances", JArr [])], 200),
     sample.disk [sample.algebra; sample.logic]) /\
  session_controller.courses_course_id_sessions_get 3
    (sample.disk [sample.algebra; sample.logic]) =
    (Ok (session_controller.COURSE_NOT_FOUND, 404),
     sample.disk [sample.algebra; sample.logic]).
Proof.
  split; [|split].
  - exact (proj1 (proj2 (get_sessions_flattens
                           (sample.disk [sample.algebra; sample.logic]) 2)
                    [sample.algebra] sample.logic []
                    eq_refl eq_refl eq_refl eq_refl)).
  - exact (proj2 (proj2 (get_sessions_flattens
                           (sample.disk [sample.algebra; sample.logic]) 1)
                    [] sample.algebra [sample.logic]
                    eq_refl eq_refl eq_refl eq_refl)
             (or_introl eq_refl)).
  - exact (proj1 (get_sessions_flattens
                    (sample.disk [sample.algebra; sample.logic]) 3)
             [sample.algebra; sample.logic] eq_refl eq_refl).
Defined.

Lemma put_session_first_match_witness :
  session_controller.courses_course_id_sessions_session_id_put 2 8
    [("titre", JStr "Induction")]
    (sample.disk [sample.algebra; sample.logic]) =
    (Ok (JObj [("message", JStr session_controller.SESSION_UPDATED_SUCCESS);
               ("seance", JObj [("id", JInt 8);
                                ("titre", JStr "Induction")])], 200),
     sample.disk1
       [sample.algebra;
        JObj [("id", JInt 2);
              ("modules",
               JArr [JObj [("id", JStr "m1")];
                     JObj [("id", JStr "m2");
                           ("seances",
                            JArr [sample.seance 7;
                                  JObj [("id", JInt 8);
                                        ("titre", JStr "Induction")]])]])]])
  /\
  session_controller.courses_course_id_sessions_session_id_put 2 9
    [("titre", JStr "Induction")]
    (sample.disk [sample.algebra; sample.logic]) =
    (Ok (session_controller.SESSION_NOT_FOUND, 404),
     sample.disk [sample.algebra; sample.logic]).
Proof.
  split.
  - exact (proj1 (proj2 (proj2 (put_session_first_match
                                  (sample.disk [sample.algebra; sample.logic])
                                  2 8 [("titre", JStr "Induction")]))
                    [sample.algebra] _ [] [JObj [("id", JStr "m1")]]
                    [("id", JStr "m2");
                     ("seances", JArr [sample.seance 7; sample.seance 8])]
                    [] [sample.seance 7] [("id", JInt 8)] []
                    eq_refl eq_refl eq_refl eq_refl eq_refl eq_refl eq_refl
                    eq_refl (NoDup_singleton "titre"))).
  - exact (proj1 (proj2 (put_session_first_match
                           (sample.disk [sample.algebra; sample.logic])
                           2 9 [("titre", JStr "Induction")]))
             [sample.algebra] sample.logic []
             eq_refl eq_refl eq_refl eq_refl).
Defined.

Lemma post_session_conflict_iff_witness :
  session_controller.courses_course_id_sessions_post 2 (sample.seance 8)
    (sample.disk [sample.algebra; sample.logic]) =
    (Ok (session_controller.SESSION_ALREADY_EXISTS, 400),
     sample.disk [sample.algebra; sample.logic]).
Proof.
  pose proof (post_session_conflict_iff
                (sample.disk [sample.algebra; sample.logic]) 2
                (sample.seance 8) [sample.algebra] [] sample.logic
                eq_refl eq_refl eq_refl eq_refl) as [Hiff Hsame].
  apply Hsame. apply Hiff. exists (JInt 8). split; reflexivity.
Defined.

Lemma post_session_first_module_witness :
  session_controller.courses_course_id_sessions_post 1 (sample.seance 5)
    (sample.disk [sample.algebra_empty; sample.logic_empty]) =
    (Ok (JObj [("message", JStr session_controller.SESSION_CREATED_SUCCESS);
               ("seance", sample.seance 5)], 201),
     sample.disk1
       [JObj [("id", JInt 1); ("title", JStr "A");
              ("modules",
               JArr [JObj [("id", JStr "module_1");
                           ("titre", JStr "Nouveau module");
                           ("seances", JArr [sample.seance 5])]])];
        sample.logic_empty]) /\
  session_controller.courses_course_id_sessions_post 2 (sample.seance 5)
    (sample.disk [sample.algebra_empty; sample.logic_empty]) =
    (Ok (JObj [("message", JStr session_controller.SESSION_CREATED_SUCCESS);
               ("seance", sample.seance 5)], 201),
     sample.disk1
       [sample.algebra_empty;
        JObj [("id", JInt 2);
              ("modules",
               JArr [JObj [("id", JStr "m1");
                           ("seances", JArr [sample.seance 5])];
                     JObj [("id", JStr "m2");
                           ("seances", JArr [sample.seance 7;
                                             sample.seance 8])]])]]) /\
  (exists d md rest ss,
     dict_get "modules" d = Some (JArr (JObj md :: rest)) /\
     dict_get "seances" md = Some (JArr (ss ++ [sample.seance 5])) /\
     course_rewritten 1
       (session_controller.courses_course_id_sessions_post 1
          (sample.seance 5)
          (sample.disk [sample.algebra_empty; sample.logic_empty])).2
       (session_controller.courses_course_id_sessions_post 1
          (sample.seance 6)
          (session_controller.courses_course_id_sessions_post 1
             (sample.seance 5)
             (sample.disk [sample.algebra_empty; sample.logic_empty])).2).2
       (JObj d)
       (JObj (dict_set "modules"
                (JArr (JObj (dict_set "seances"
                               (JArr (ss ++ [sample.seance 5;
                                             sample.seance 6])) md)
                       :: rest))
                d))).
Proof.
  pose proof (post_session_first_module
                (sample.disk [sample.algebra_empty; sample.logic_empty]) 1
                (sample.seance 5)) as (Hnew & _ & Hany).
  pose proof (post_session_first_module
                (sample.disk [sample.algebra_empty; sample.logic_empty]) 2
                (sample.seance 5)) as (_ & Hfirst & _).
  split; [|split].
  - exact (Hnew [] _ [sample.logic_empty] eq_refl eq_refl eq_refl eq_refl).
  - exact (Hfirst [sample.algebra_empty] _ [] [("id", JStr "m1");
                                               ("seances", JArr [])]
             _ [] (JInt 5) eq_refl eq_refl eq_refl eq_refl eq_refl eq_refl
             eq_refl eq_refl).
  - exact (proj2 (Hany _ _ eq_refl) (sample.seance 6) _ _ eq_refl).
Defined.

Lemma success_touches_one_course_witness :
  (exists c c',
     course_rewritten 1
       (sample.disk [sample.physics; sample.algebra; sample.logic])
       (sample.disk1 [sample.physics;
                      JObj [("id", JInt 1); ("title", JStr "B")];
                      sample.logic]) c c') /\
  (exists c,
     course_removed 1
       (sample.disk [sample.physics; sample.algebra; sample.logic])
       (sample.disk1 [sample.physics; sample.logic]) c) /\
  (exists c c',
     course_rewritten 2
       (sample.disk [sample.algebra; sample.logic_empty])
       (session_controller.courses_course_id_sessions_post 2
          (sample.seance 5)
          (sample.disk [sample.algebra; sample.logic_empty])).2 c c') /\
  (exists c c',
     course_rewritten 2
       (sample.disk [sample.algebra; sample.logic])
       (session_controller.courses_course_id_sessions_session_id_put 2 8
          [("titre", JStr "Induction")]
          (sample.disk [sample.algebra; sample.logic])).2 c c').
Proof.
  split; [|split; [|split]].
  - exact (proj1 (success_touches_one_course
                    (sample.disk [sample.physics; sample.algebra;
                                  sample.logic])
                    (sample.disk1 [sample.physics;
                                   JObj [("id", JInt 1); ("title", JStr "B")];
                                   sample.logic])
                    1
                    (JObj [("message", JStr "Cours mis à jour avec succès.");
                           ("cours", JObj [("id", JInt 1);
                                           ("title", JStr "B")])]))
             [("title", JStr "B")] eq_refl).
  - exact (proj1 (proj2 (success_touches_one_course
                           (sample.disk [sample.physics; sample.algebra;
                                         sample.logic])
                           (sample.disk1 [sample.physics; sample.logic])
                           1 (message "Cours supprimé avec succès.")))
             eq_refl).
  - exact (proj1 (proj2 (proj2 (success_touches_one_course
                                  (sample.disk [sample.algebra;
                                                sample.logic_empty])
                                  _ 2
                                  (JObj
                                     [("message",
                                       JStr "Séance créée avec succès.");
                                      ("seance", sample.seance 5)]))))
             (sample.seance 5) eq_refl).
  - exact (proj2 (proj2 (proj2 (success_touches_one_course
                                  (sample.disk [sample.algebra; sample.logic])
                                  _ 2
                                  (JObj
                                     [("message",
                                       JStr "Séance mise à jour avec succès.");
                                      ("seance",
                                       JObj [("id", JInt 8);
                                             ("titre",
                                              JStr "Induction")])]))))
             8 [("titre", JStr "Induction")] eq_refl).
Defined.

(** * Further properties of the two controllers *)

(** ** The endpoints on a found and on a missing course *)

Lemma first_course_no_id (data : json) (cid : Z) (l1 l2 : list json)
  (d : dict) :
  cours_of data = Some (l1 ++ JObj d :: l2) ->
  forallb (other_id (JInt cid)) l1 = true ->
  dict_get "id" d = None ->
  first_course data cid = Raise KeyError.
Proof.
  intros Hd Hl1 Hid. unfold first_course, cours_of, field in *.
  destruct data; try discriminate. simpl.
  destruct (dict_get "cours" kvs) as [[]|]; try discriminate.
  injection Hd as ->. unmonad.
  pose proof (others_no_match _ _ Hl1) as Hno. clear Hl1.
  generalize 0%nat.
  induction Hno as [|x l1 Hx _ IH]; intros n; simpl.
  - now rewrite Hid.
  - unfold id_is in Hx. unmonad. rewrite Hx. apply IH.
Qed.

Lemma get_course_found (s : fs) (cid : Z) (l1 l2 : list json) (c : json) :
  cours_of (document s) = Some (l1 ++ c :: l2) ->
  forallb (other_id (JInt cid)) l1 = true ->
  has_id (JInt cid) c = true ->
  cours_controller.courses_course_id_get cid s = (Ok (c, 200), s).
Proof.
  intros Hd Hl1 Hc. unfold cours_controller.courses_course_id_get. unmonad.
  rewrite (cours_load _ _ Hd), (first_course_found _ _ _ _ _ Hd Hl1 Hc).
  cbv beta iota. cbn [deref]. now rewrite (has_id_truthy _ _ Hc).
Qed.

Lemma get_course_none (s : fs) (cid : Z) (l : list json) :
  cours_of (document s) = Some l ->
  forallb (other_id (JInt cid)) l = true ->
  cours_controller.courses_course_id_get cid s =
    (Ok (cours_controller.COURSE_NOT_FOUND, 404), s).
Proof.
  intros Hd Hl. unfold cours_controller.courses_course_id_get. unmonad.
  now rewrite (cours_load _ _ Hd), (first_course_none _ _ _ Hd Hl).
Qed.

Lemma post_course_fresh (s : fs) (inp : dict) (w : json) (l : list json) :
  cours_of (document s) = Some l ->
  default JNull (dict_get "id" inp) = w ->
  forallb (other_id w) l = true ->
  cours_controller.courses_post (JObj inp) s =
    (Ok (JObj [("message", JStr "Cours créé avec succès.");
               ("cours", JObj inp)], 201),
     saved (with_cours (document s) (l ++ [JObj inp])) s).
Proof.
  intros Hd Hw Hl.
  assert (Hany : forall l0,
             py_any (fun course =>
                       i ← py_getitem course "id";
                       i' ← py_get (JObj inp) "id" JNull;
                       mret (py_eq i i')) l0 = py_any (id_is w) l0).
  { intros l0. apply py_any_ext. intros x. unfold id_is, py_get.
    now rewrite Hw. }
  unfold cours_controller.courses_post, cours_of, field in *.
  destruct (document s) as [| | | | |kvs] eqn:Hdoc; try discriminate.
  destruct (dict_get "cours" kvs) as [[]|] eqn:Hc; try discriminate.
  injection Hd as ->. destruct (others_existsb _ _ Hl) as [Hid Hex].
  unmonad. rewrite (cours_load_obj _ _ Hdoc), Hdoc. simpl. rewrite Hc. simpl.
  rewrite Hany, (py_any_id_is _ _ Hid), Hex.
  unfold in_item, py_getitem. rewrite Hc. reflexivity.
Qed.

Lemma put_course_found (s : fs) (cid : Z) (patch : dict)
  (l1 l2 : list json) (d : dict) :
  cours_of (document s) = Some (l1 ++ JObj d :: l2) ->
  forallb (other_id (JInt cid)) l1 = true ->
  has_id (JInt cid) (JObj d) = true ->
  cours_controller.courses_course_id_put cid patch s =
    (Ok (JObj [("message", JStr "Cours mis à jour avec succès.");
               ("cours", JObj (dict_update d patch))], 200),
     saved (with_cours (document s)
              (l1 ++ JObj (dict_update d patch) :: l2)) s).
Proof.
  intros Hd Hl1 Hc. unfold cours_controller.courses_course_id_put. unmonad.
  rewrite (cours_load _ _ Hd), (first_course_found _ _ _ _ _ Hd Hl1 Hc).
  cbv beta iota. cbn [deref]. rewrite (has_id_truthy _ _ Hc). simpl.
  now rewrite (store_course_middle _ _ _ _ _ Hd).
Qed.

Lemma delete_course_found (s : fs) (cid : Z) (l1 l2 : list json) (c : json) :
  cours_of (document s) = Some (l1 ++ c :: l2) ->
  forallb (other_id (JInt cid)) l1 = true ->
  has_id (JInt cid) c = true ->
  cours_controller.courses_course_id_delete cid s =
    (Ok (message "Cours supprimé avec succès.", 200),
     saved (with_cours (document s) (l1 ++ l2)) s).
Proof.
  intros Hd Hl1 Hc.
  unfold cours_controller.courses_course_id_delete. unmonad.
  rewrite (cours_load _ _ Hd), (first_course_found _ _ _ _ _ Hd Hl1 Hc).
  cbv beta iota. cbn [deref]. rewrite (has_id_truthy _ _ Hc). simpl.
  unfold cours_of, field in Hd. unfold in_item, py_getitem, with_cours.
  destruct (document s) as [| | | | |kvs]; try discriminate.
  destruct (dict_get "cours" kvs) as [[]|]; try discriminate.
  injection Hd as ->. unmonad.
  pose proof (remove_from_found cid l1 l2 c 0 Hl1 Hc) as Hr.
  simpl in Hr. now rewrite Hr.
Qed.

Lemma document_saved (data : json) (s : fs) : document (saved data s) = data.
Proof. reflexivity. Qed.

Lemma saved_cours (s : fs) (l l' : list json) :
  cours_of (document s) = Some l ->
  cours_of (document (saved (with_cours (document s) l') s)) = Some l'.
Proof. intros H. rewrite document_saved. exact (cours_of_with_cours _ _ _ H). Qed.

(** ** What every request does to the file *)

Ltac split_goal :=
  repeat match goal with
         | |- context [match ?x with Ok _ => _ | Raise _ => _ end] =>
             destruct x
         | |- context [if ?b then _ else _] => destruct b
         end.

(** The three reading endpoints leave the file and its write count as
    they found them, whatever the document holds and whether they
    answer or raise. *)
Theorem reads_never_write (s : fs) (cid : Z) :
  (cours_controller.courses_get s).2 = s /\
  (cours_controller.courses_course_id_get cid s).2 = s /\
  (session_controller.courses_course_id_sessions_get cid s).2 = s.
Proof.
  unfold cours_controller.courses_get,
    cours_controller.courses_course_id_get,
    session_controller.courses_course_id_sessions_get,
    session_controller.find_course_by_id.
  unmonad.
  destruct (load_cases s) as [[Hc Hs]|(e & Hc & Hs & _)]; rewrite Hc, Hs;
    repeat split; split_goal; reflexivity.
Qed.

(** When a changing endpoint answers with its success status (201
    for the two creations, 200 for the others) it has written the
    file exactly once, and when it answers 400 or 404 it has not
    touched the file or the write count. *)
Theorem writes_exactly_on_success (s : fs) (cid sid : Z) (input : json)
  (patch : dict) :
  written_when 201 s (cours_controller.courses_post input s) /\
  written_when 200 s (cours_controller.courses_course_id_put cid patch s) /\
  written_when 200 s (cours_controller.courses_course_id_delete cid s) /\
  written_when 201 s
    (session_controller.courses_course_id_sessions_post cid input s) /\
  written_when 200 s
    (session_controller.courses_course_id_sessions_session_id_put
       cid sid patch s).
Proof.
  unfold written_when, cours_controller.courses_post,
    cours_controller.courses_course_id_put,
    cours_controller.courses_course_id_delete,
    session_controller.courses_course_id_sessions_post,
    session_controller.courses_course_id_sessions_session_id_put,
    session_controller.find_course_by_id.
  unmonad.
  destruct (load_cases s) as [[Hc Hs]|(e & Hc & Hs & _)]; rewrite Hc, Hs;
    repeat split; split_goal; simpl; intros;
    first [discriminate | congruence | eauto].
Qed.

Lemma writes_exactly_on_success_witness :
  writes (cours_controller.courses_post sample.physics
            (sample.disk [sample.algebra])).2 = 1%nat /\
  (cours_controller.courses_post sample.physics
     (sample.disk [sample.physics])).2 = sample.disk [sample.physics].
Proof.
  pose proof (proj1 (writes_exactly_on_success
                       (sample.disk [sample.algebra]) 1 1 sample.physics []))
    as [Hok _].
  pose proof (proj1 (writes_exactly_on_success
                       (sample.disk [sample.physics]) 1 1 sample.physics []))
    as [_ Hno].
  split.
  - exact (proj1 (Hok eq_refl)).
  - refine (Hno 400 eq_refl _). discriminate.
Defined.

(** The statuses an endpoint can answer with: 200 for the list of
    courses; 201 or 400 for the creation of a course; 200 or 404 for
    the reading, the update and the deletion of a course, the list of
    sessions and the update of a session; 201, 400 or 404 for the
    creation of a session. *)
Theorem statuses_of_endpoints (s : fs) (cid sid : Z) (input : json)
  (patch : dict) :
  answers [200] (cours_controller.courses_get s).1 = true /\
  answers [201; 400] (cours_controller.courses_post input s).1 = true /\
  answers [200; 404] (cours_controller.courses_course_id_get cid s).1 = true /\
  answers [200; 404]
    (cours_controller.courses_course_id_put cid patch s).1 = true /\
  answers [200; 404] (cours_controller.courses_course_id_delete cid s).1
    = true /\
  answers [200; 404]
    (session_controller.courses_course_id_sessions_get cid s).1 = true /\
  answers [201; 400; 404]
    (session_controller.courses_course_id_sessions_post cid input s).1
    = true /\
  answers [200; 404]
    (session_controller.courses_course_id_sessions_session_id_put
       cid sid patch s).1 = true.
Proof.
  unfold cours_controller.courses_get, cours_controller.courses_post,
    cours_controller.courses_course_id_get,
    cours_controller.courses_course_id_put,
    cours_controller.courses_course_id_delete,
    session_controller.courses_course_id_sessions_get,
    session_controller.courses_course_id_sessions_post,
    session_controller.courses_course_id_sessions_session_id_put,
    session_controller.find_course_by_id.
  unmonad.
  destruct (load_cases s) as [[Hc Hs]|(e & Hc & Hs & _)]; rewrite Hc, Hs;
    repeat split; split_goal; reflexivity.
Qed.

(** ** Reading a course *)

(** Reading a course answers 404 when every course of the document
    has another id, and otherwise 200 with the first course that has
    the id, as it is stored; a later course with the same id is never
    returned. *)
Theorem get_course_first_match (s : fs) (cid : Z) :
  (forall l,
     cours_of (document s) = Some l ->
     forallb (other_id (JInt cid)) l = true ->
     cours_controller.courses_course_id_get cid s =
       (Ok (cours_controller.COURSE_NOT_FOUND, 404), s)) /\
  (forall l1 c l2,
     cours_of (document s) = Some (l1 ++ c :: l2) ->
     forallb (other_id (JInt cid)) l1 = true ->
     has_id (JInt cid) c = true ->
     cours_controller.courses_course_id_get cid s = (Ok (c, 200), s)).
Proof.
  split.
  - intros l. apply get_course_none.
  - intros l1 c l2. apply get_course_found.
Qed.

Lemma get_course_first_match_witness :
  cours_controller.courses_course_id_get 1
    (sample.disk [sample.physics; sample.algebra; sample.algebra_empty]) =
    (Ok (sample.algebra, 200),
     sample.disk [sample.physics; sample.algebra; sample.algebra_empty]) /\
  cours_controller.courses_course_id_get 2
    (sample.disk [sample.physics; sample.algebra]) =
    (Ok (cours_controller.COURSE_NOT_FOUND, 404),
     sample.disk [sample.physics; sample.algebra]).
Proof.
  split.
  - exact (proj2 (get_course_first_match
                    (sample.disk [sample.physics; sample.algebra;
                                  sample.algebra_empty]) 1)
             [sample.physics] sample.algebra [sample.algebra_empty]
             eq_refl eq_refl eq_refl).
  - exact (proj1 (get_course_first_match
                    (sample.disk [sample.physics; sample.algebra]) 2)
             [sample.physics; sample.algebra] eq_refl eq_refl).
Defined.

(** ** Documents and requests out of shape *)

(** When the stored document is an object without the key [cours],
    every endpoint raises [KeyError] and the file is not written,
    whatever the request. *)
Theorem no_cours_key_raises (s : fs) (d : dict) (cid sid : Z)
  (input : json) (patch : dict) :
  document s = JObj d ->
  dict_get "cours" d = None ->
  cours_controller.courses_get s = (Raise KeyError, s) /\
  cours_controller.courses_post input s = (Raise KeyError, s) /\
  cours_controller.courses_course_id_get cid s = (Raise KeyError, s) /\
  cours_controller.courses_course_id_put cid patch s = (Raise KeyError, s) /\
  cours_controller.courses_course_id_delete cid s = (Raise KeyError, s) /\
  session_controller.courses_course_id_sessions_get cid s =
    (Raise KeyError, s) /\
  session_controller.courses_course_id_sessions_post cid input s =
    (Raise KeyError, s) /\
  session_controller.courses_course_id_sessions_session_id_put
    cid sid patch s = (Raise KeyError, s).
Proof.
  intros Hdoc Hno.
  unfold cours_controller.courses_get, cours_controller.courses_post,
    cours_controller.courses_course_id_get,
    cours_controller.courses_course_id_put,
    cours_controller.courses_course_id_delete,
    session_controller.courses_course_id_sessions_get,
    session_controller.courses_course_id_sessions_post,
    session_controller.courses_course_id_sessions_session_id_put,
    session_controller.find_course_by_id, first_course.
  unmonad.
  rewrite (cours_load_obj _ _ Hdoc), (session_load_obj _ _ Hdoc), Hdoc.
  simpl. rewrite Hno.
  repeat split.
Qed.

Lemma no_cours_key_raises_witness :
  cours_controller.courses_get (mk_fs (Content (JObj [])) 0) =
    (Raise KeyError, mk_fs (Content (JObj [])) 0) /\
  session_controller.courses_course_id_sessions_post 1 (sample.seance 5)
    (mk_fs (Content (JObj [])) 0) =
    (Raise KeyError, mk_fs (Content (JObj [])) 0).
Proof.
  pose proof (no_cours_key_raises (mk_fs (Content (JObj [])) 0) [] 1 1
                (sample.seance 5) [] eq_refl eq_refl) as H.
  split; [exact (proj1 H)|].
  exact (proj1 (proj2 (proj2 (proj2 (proj2 (proj2 (proj2 H))))))).
Defined.

(** The creation of a session looks for the course before it looks at
    the request: when every course has another id it answers 404 and
    writes nothing, whatever the body is, a body without [id] or one
    that is no object included. *)
Theorem post_session_course_not_found (s : fs) (cid : Z) (input : json)
  (l : list json) :
  cours_of (document s) = Some l ->
  forallb (other_id (JInt cid)) l = true ->
  session_controller.courses_course_id_sessions_post cid input s =
    (Ok (session_controller.COURSE_NOT_FOUND, 404), s).
Proof.
  intros Hd Hl.
  unfold session_controller.courses_course_id_sessions_post,
    session_controller.find_course_by_id. unmonad.
  now rewrite (session_load _ _ Hd), (first_course_none _ _ _ Hd Hl).
Qed.

Lemma post_session_course_not_found_witness :
  session_controller.courses_course_id_sessions_post 9 JNull
    (sample.disk [sample.algebra; sample.logic]) =
    (Ok (session_controller.COURSE_NOT_FOUND, 404),
     sample.disk [sample.algebra; sample.logic]).
Proof.
  exact (post_session_course_not_found
           (sample.disk [sample.algebra; sample.logic]) 9 JNull
           [sample.algebra; sample.logic] eq_refl eq_refl).
Defined.

(** ** Requests one after the other *)

Lemma dict_get_update_other (k : string) (p d : dict) :
  dict_get k p = None -> dict_get k (dict_update d p) = dict_get k d.
Proof.
  unfold dict_update. revert d.
  induction p as [|[k0 v0] p IH]; intros d; simpl; auto.
  destruct (String.eqb k k0) eqn:E; [discriminate|].
  intros Hp. rewrite (IH _ Hp). apply dict_get_set_ne.
  intros ->. now rewrite String.eqb_refl in E.
Qed.

Lemma dict_set_same (k : string) (v : json) (d : dict) :
  dict_get k d = Some v -> dict_set k v d = d.
Proof.
  induction d as [|[k0 v0] r IH]; simpl; [discriminate|].
  destruct (String.eqb k k0) eqn:E.
  - now intros [= ->].
  - intros H. now rewrite (IH H).
Qed.

Lemma dict_get_in (k : string) (v : json) (p : dict) :
  NoDup p.*1 -> (k, v) ∈ p -> dict_get k p = Some v.
Proof.
  induction p as [|[k0 v0] p IH]; simpl; intros Hnd Hin.
  - inversion Hin.
  - inversion Hnd as [|? ? Hnotin Hnd']; subst.
    apply elem_of_cons in Hin as [[= -> ->]|Hin].
    + now rewrite String.eqb_refl.
    + destruct (String.eqb k k0) eqn:E; [|auto].
      apply String.eqb_eq in E. subst k0. exfalso. apply Hnotin.
      apply list_elem_of_fmap. exists (k, v). auto.
Qed.

Lemma dict_update_fixed (d p : dict) :
  Forall (fun kv => dict_get kv.1 d = Some kv.2) p -> dict_update d p = d.
Proof.
  unfold dict_update. induction 1 as [|[k v] p Hkv _ IH]; simpl; auto.
  simpl in Hkv. now rewrite (dict_set_same _ _ _ Hkv).
Qed.

(** Merging the same patch a second time changes nothing. *)
Lemma dict_update_idem (d p : dict) :
  NoDup p.*1 -> dict_update (dict_update d p) p = dict_update d p.
Proof.
  intros Hnd. apply dict_update_fixed. apply Forall_forall.
  intros [k v] Hin. simpl. rewrite (dict_get_update _ _ _ Hnd).
  now rewrite (dict_get_in _ _ _ Hnd Hin).
Qed.

Lemma with_cours_twice (data : json) (l l' : list json) :
  with_cours (with_cours data l) l' = with_cours data l'.
Proof. destruct data; simpl; auto. now rewrite dict_set_set. Qed.

Lemma forallb_app_true {A : Type} (f : A -> bool) (l1 l2 : list A) :
  forallb f l1 = true -> forallb f l2 = true -> forallb f (l1 ++ l2) = true.
Proof. intros H1 H2. now rewrite forallb_app, H1, H2. Qed.

Lemma has_id_int_refl (n : Z) (d : dict) :
  dict_get "id" d = Some (JInt n) -> has_id (JInt n) (JObj d) = true.
Proof. unfold has_id, field. intros ->. apply Z.eqb_refl. Qed.

(** A course created with an integer id that no course has is what
    reading that id answers next: the stored course is the request
    body, field for field. *)
Theorem post_course_then_get (s : fs) (cid : Z) (inp : dict)
  (l : list json) :
  cours_of (document s) = Some l ->
  dict_get "id" inp = Some (JInt cid) ->
  forallb (other_id (JInt cid)) l = true ->
  status (cours_controller.courses_post (JObj inp) s).1 = Some 201 /\
  cours_controller.courses_course_id_get cid
    (cours_controller.courses_post (JObj inp) s).2 =
    (Ok (JObj inp, 200), (cours_controller.courses_post (JObj inp) s).2).
Proof.
  intros Hd Hid Hl.
  rewrite (post_course_fresh s inp (JInt cid) l Hd) by (now rewrite Hid || auto).
  split; [reflexivity|]. simpl fst. simpl snd.
  apply (get_course_found _ cid l [] (JObj inp)); auto.
  - apply (saved_cours _ _ _ Hd).
  - now apply has_id_int_refl.
Qed.

Lemma post_course_then_get_witness :
  cours_controller.courses_course_id_get 3
    (cours_controller.courses_post sample.physics
       (sample.disk [sample.algebra; sample.logic])).2 =
    (Ok (sample.physics, 200),
     sample.disk1 [sample.algebra; sample.logic; sample.physics]).
Proof.
  exact (proj2 (post_course_then_get
                  (sample.disk [sample.algebra; sample.logic]) 3
                  [("id", JInt 3)] [sample.algebra; sample.logic]
                  eq_refl eq_refl eq_refl)).
Defined.

(** After the deletion of the only course with an id, reading the id
    answers 404, and the id is free again: a course created with it is
    stored after the courses that are left. *)
Theorem delete_course_frees_id (s : fs) (cid : Z) (l1 l2 : list json)
  (c : json) (inp : dict) :
  cours_of (document s) = Some (l1 ++ c :: l2) ->
  forallb (other_id (JInt cid)) l1 = true ->
  has_id (JInt cid) c = true ->
  forallb (other_id (JInt cid)) l2 = true ->
  dict_get "id" inp = Some (JInt cid) ->
  cours_controller.courses_course_id_get cid
    (cours_controller.courses_course_id_delete cid s).2 =
    (Ok (cours_controller.COURSE_NOT_FOUND, 404),
     (cours_controller.courses_course_id_delete cid s).2) /\
  status (cours_controller.courses_post (JObj inp)
            (cours_controller.courses_course_id_delete cid s).2).1 =
    Some 201 /\
  cours_of (document
              (cours_controller.courses_post (JObj inp)
                 (cours_controller.courses_course_id_delete cid s).2).2) =
    Some (l1 ++ l2 ++ [JObj inp]).
Proof.
  intros Hd Hl1 Hc Hl2 Hid.
  rewrite (delete_course_found _ _ _ _ _ Hd Hl1 Hc).
  pose proof (saved_cours s _ (l1 ++ l2) Hd) as Hd1.
  pose proof (forallb_app_true _ _ _ Hl1 Hl2) as Hl.
  simpl snd. split; [|split].
  - now apply (get_course_none _ cid (l1 ++ l2)).
  - rewrite (post_course_fresh _ inp (JInt cid) (l1 ++ l2) Hd1); auto.
    now rewrite Hid.
  - rewrite (post_course_fresh _ inp (JInt cid) (l1 ++ l2) Hd1); auto.
    + simpl snd. rewrite (saved_cours _ _ _ Hd1). now rewrite <- app_assoc.
    + now rewrite Hid.
Qed.

Lemma delete_course_frees_id_witness :
  cours_controller.courses_course_id_get 1
    (cours_controller.courses_course_id_delete 1
       (sample.disk [sample.physics; sample.algebra; sample.logic])).2 =
    (Ok (cours_controller.COURSE_NOT_FOUND, 404),
     sample.disk1 [sample.physics; sample.logic]) /\
  cours_of (document
              (cours_controller.courses_post sample.algebra_empty
                 (cours_controller.courses_course_id_delete 1
                    (sample.disk [sample.physics; sample.algebra;
                                  sample.logic])).2).2) =
    Some [sample.physics; sample.logic; sample.algebra_empty].
Proof.
  pose proof (delete_course_frees_id
                (sample.disk [sample.physics; sample.algebra; sample.logic])
                1 [sample.physics] [sample.logic] sample.algebra
                [("id", JInt 1); ("title", JStr "A"); ("modules", JArr [])]
                eq_refl eq_refl eq_refl eq_refl eq_refl) as (H1 & _ & H3).
  split; [exact H1 | exact H3].
Defined.

(** An update whose patch has no [id] keeps the course where it is
    found: reading the id next answers the merged course, and the same
    update again answers the same course and writes the same
    document. *)
Theorem put_course_then_get_idempotent (s : fs) (cid : Z) (patch : dict)
  (l1 l2 : list json) (d : dict) :
  cours_of (document s) = Some (l1 ++ JObj d :: l2) ->
  forallb (other_id (JInt cid)) l1 = true ->
  has_id (JInt cid) (JObj d) = true ->
  dict_get "id" patch = None ->
  NoDup patch.*1 ->
  cours_controller.courses_course_id_get cid
    (cours_controller.courses_course_id_put cid patch s).2 =
    (Ok (JObj (dict_update d patch), 200),
     (cours_controller.courses_course_id_put cid patch s).2) /\
  (cours_controller.courses_course_id_put cid patch
     (cours_controller.courses_course_id_put cid patch s).2).1 =
  (cours_controller.courses_course_id_put cid patch s).1 /\
  document (cours_controller.courses_course_id_put cid patch
              (cours_controller.courses_course_id_put cid patch s).2).2 =
  document (cours_controller.courses_course_id_put cid patch s).2.
Proof.
  intros Hd Hl1 Hc Hnoid Hnd.
  rewrite (put_course_found _ _ patch _ _ _ Hd Hl1 Hc). simpl snd. simpl fst.
  pose proof (saved_cours s _ (l1 ++ JObj (dict_update d patch) :: l2) Hd)
    as Hd1.
  assert (Hc1 : has_id (JInt cid) (JObj (dict_update d patch)) = true).
  { unfold has_id, field in *. now rewrite dict_get_update_other. }
  split; [now apply (get_course_found _ cid l1 l2)|].
  rewrite (put_course_found _ _ patch _ _ _ Hd1 Hl1 Hc1).
  rewrite (dict_update_idem _ _ Hnd). simpl. split; [reflexivity|].
  apply with_cours_twice.
Qed.

Lemma put_course_then_get_idempotent_witness :
  cours_controller.courses_course_id_get 1
    (cours_controller.courses_course_id_put 1 [("title", JStr "B")]
       (sample.disk [sample.physics; sample.algebra])).2 =
    (Ok (JObj [("id", JInt 1); ("title", JStr "B")], 200),
     sample.disk1 [sample.physics;
                   JObj [("id", JInt 1); ("title", JStr "B")]]).
Proof.
  exact (proj1 (put_course_then_get_idempotent
                  (sample.disk [sample.physics; sample.algebra]) 1
                  [("title", JStr "B")] [sample.physics] []
                  [("id", JInt 1); ("title", JStr "A")]
                  eq_refl eq_refl eq_refl eq_refl
                  (NoDup_singleton "title"))).
Defined.

(** An update may give a course the id of a course stored before it,
    and nothing checks it: the answer is 200, and from then on the
    updated course is out of reach, reading its new id answers the
    earlier course and reading its old id answers 404. *)
Theorem put_course_id_collision (s : fs) (cid cid' : Z) (patch : dict)
  (l0 l0' l2 : list json) (c0 : json) (d : dict) :
  cours_of (document s) = Some ((l0 ++ c0 :: l0') ++ JObj d :: l2) ->
  forallb (other_id (JInt cid)) (l0 ++ c0 :: l0') = true ->
  has_id (JInt cid) (JObj d) = true ->
  forallb (other_id (JInt cid)) l2 = true ->
  forallb (other_id (JInt cid')) l0 = true ->
  has_id (JInt cid') c0 = true ->
  dict_get "id" patch = Some (JInt cid') ->
  NoDup patch.*1 ->
  status (cours_controller.courses_course_id_put cid patch s).1 = Some 200 /\
  cours_controller.courses_course_id_get cid'
    (cours_controller.courses_course_id_put cid patch s).2 =
    (Ok (c0, 200), (cours_controller.courses_course_id_put cid patch s).2) /\
  cours_controller.courses_course_id_get cid
    (cours_controller.courses_course_id_put cid patch s).2 =
    (Ok (cours_controller.COURSE_NOT_FOUND, 404),
     (cours_controller.courses_course_id_put cid patch s).2).
Proof.
  intros Hd Hl1 Hc Hl2 Hl0 Hc0 Hpid Hnd.
  rewrite (put_course_found _ _ patch _ _ _ Hd Hl1 Hc). simpl snd. simpl fst.
  pose proof (saved_cours s _
                ((l0 ++ c0 :: l0') ++ JObj (dict_update d patch) :: l2) Hd)
    as Hd1.
  assert (Hne : cid' <> cid).
  { intros ->. rewrite forallb_app in Hl1. simpl in Hl1.
    apply andb_true_iff in Hl1 as [_ Hl1].
    apply andb_true_iff in Hl1 as [Hx _].
    apply other_id_identified in Hx as [_ Hx]. congruence. }
  assert (Hnew : other_id (JInt cid) (JObj (dict_update d patch)) = true).
  { unfold other_id, field. rewrite (dict_get_update _ _ _ Hnd), Hpid.
    simpl. apply negb_true_iff. now apply Z.eqb_neq. }
  split; [reflexivity|]. split.
  - apply (get_course_found _ cid' l0
             (l0' ++ JObj (dict_update d patch) :: l2) c0); auto.
    rewrite Hd1. now rewrite <- app_assoc.
  - apply (get_course_none _ cid _ Hd1).
    apply forallb_app_true; auto. simpl. now rewrite Hnew, Hl2.
Qed.

Lemma put_course_id_collision_witness :
  cours_controller.courses_course_id_get 3
    (cours_controller.courses_course_id_put 1 [("id", JInt 3)]
       (sample.disk [sample.physics; sample.algebra])).2 =
    (Ok (sample.physics, 200),
     sample.disk1 [sample.physics;
                   JObj [("id", JInt 3); ("title", JStr "A")]]) /\
  cours_controller.courses_course_id_get 1
    (cours_controller.courses_course_id_put 1 [("id", JInt 3)]
       (sample.disk [sample.physics; sample.algebra])).2 =
    (Ok (cours_controller.COURSE_NOT_FOUND, 404),
     sample.disk1 [sample.physics;
                   JObj [("id", JInt 3); ("title", JStr "A")]]).
Proof.
  exact (proj2 (put_course_id_collision
                  (sample.disk [sample.physics; sample.algebra]) 1 3
                  [("id", JInt 3)] [] [] [] sample.physics
                  [("id", JInt 1); ("title", JStr "A")]
                  eq_refl eq_refl eq_refl eq_refl eq_refl eq_refl eq_refl
                  (NoDup_singleton "id"))).
Defined.

(** ** Sessions: requests one after the other *)

Lemma module_ok_weaken (p : json -> bool) (m : json) :
  module_ok p m = true -> module_ok (fun _ => true) m = true.
Proof.
  unfold module_ok. destruct m; auto.
  destruct (dict_get "seances" kvs) as [[]|]; auto.
  intros _. induction l; simpl; auto.
Qed.

Lemma modules_ok_weaken (p : json -> bool) (ms : list json) :
  forallb (module_ok p) ms = true ->
  forallb (module_ok (fun _ => true)) ms = true.
Proof.
  induction ms as [|m ms IH]; simpl; auto.
  intros H. apply andb_true_iff in H as [Hm Hms].
  now rewrite (module_ok_weaken _ _ Hm), IH.
Qed.

Lemma get_sessions_found (s : fs) (cid : Z) (l1 l2 : list json) (c : json) :
  cours_of (document s) = Some (l1 ++ c :: l2) ->
  forallb (other_id (JInt cid)) l1 = true ->
  has_id (JInt cid) c = true ->
  shaped c = true ->
  session_controller.courses_course_id_sessions_get cid s =
    (Ok (JObj [("seances", JArr (sessions_of c))], 200), s).
Proof.
  intros Hd Hl1 Hc Hsh.
  unfold session_controller.courses_course_id_sessions_get,
    session_controller.find_course_by_id. unmonad.
  rewrite (session_load _ _ Hd), (first_course_found _ _ _ _ _ Hd Hl1 Hc).
  cbv beta iota. cbn [deref]. rewrite (has_id_truthy _ _ Hc). simpl.
  unfold shaped, course_ok, sessions_of, modules_of, field, py_get in *.
  destruct c as [| | | | |d]; try discriminate.
  destruct (dict_get "modules" d) as [[]|]; try discriminate; simpl.
  - now rewrite (extend_all_shaped _ [] Hsh).
  - reflexivity.
Qed.

Lemma post_session_taken (s : fs) (cid : Z) (input w : json)
  (l1 l2 : list json) (c : json) :
  cours_of (document s) = Some (l1 ++ c :: l2) ->
  forallb (other_id (JInt cid)) l1 = true ->
  has_id (JInt cid) c = true ->
  wf_course c = true ->
  field "id" input = Some w ->
  existsb (has_id w) (sessions_of c) = true ->
  session_controller.courses_course_id_sessions_post cid input s =
    (Ok (session_controller.SESSION_ALREADY_EXISTS, 400), s).
Proof.
  intros Hd Hl1 Hc Hwf Hw Hex.
  destruct (has_id_obj _ _ Hc) as [d ->].
  assert (exists ms, dict_get "modules" d = Some (JArr ms)) as [ms Hm].
  { unfold wf_course, course_ok, sessions_of, modules_of, field in *.
    destruct (dict_get "modules" d) as [[]|]; try discriminate; eauto. }
  unfold session_controller.courses_course_id_sessions_post,
    session_controller.find_course_by_id. unmonad.
  destruct (any_session_taken (JObj d) input ms Hwf Hm) as [Hany _].
  specialize (Hany w Hw). rewrite Hex in Hany.
  rewrite (session_load _ _ Hd), (first_course_found _ _ _ _ _ Hd Hl1 Hc).
  cbv beta iota. cbn [deref]. rewrite (has_id_truthy _ _ Hc).
  cbn [negb]. cbv iota.
  rewrite (py_getitem_obj _ _ _ Hm). cbn [py_iter]. cbv iota beta.
  match goal with
  | |- context [py_any ?p ?l] =>
      replace (py_any p l) with (Ok true : py bool)
        by (symmetry; exact Hany)
  end.
  reflexivity.
Qed.

Lemma existsb_last {A : Type} (f : A -> bool) (l : list A) (x : A) :
  f x = true -> existsb f (l ++ [x]) = true.
Proof.
  intros H. rewrite existsb_app. simpl. rewrite H.
  now rewrite orb_true_r.
Qed.

Lemma forallb_last {A : Type} (f : A -> bool) (l : list A) (x : A) :
  forallb f l = true -> f x = true -> forallb f (l ++ [x]) = true.
Proof. intros Hl Hx. rewrite forallb_app, Hl. simpl. now rewrite Hx. Qed.

(** The course after a creation in its first module, and what the
    later requests need of it. *)
Lemma into_first_facts (cid sid : Z) (d m0 inp : dict) (rest ss : list json) :
  has_id (JInt cid) (JObj d) = true ->
  wf_course (JObj d) = true ->
  dict_get "modules" d = Some (JArr (JObj m0 :: rest)) ->
  dict_get "seances" m0 = Some (JArr ss) ->
  dict_get "id" inp = Some (JInt sid) ->
  let c' := JObj (dict_set "modules"
                    (JArr (JObj (dict_set "seances"
                                   (JArr (ss ++ [JObj inp])) m0) :: rest))
                    d) in
  has_id (JInt cid) c' = true /\ wf_course c' = true /\
  sessions_of c' = ss ++ JObj inp :: flat_map seances_of rest /\
  sessions_of (JObj d) = ss ++ flat_map seances_of rest.
Proof.
  intros Hc Hwf Hm Hs Hid c'. unfold c'.
  unfold wf_course, course_ok, sessions_of, modules_of, has_id, field in *.
  rewrite Hm in *. rewrite dict_get_set_eq. simpl in *. rewrite Hs in *.
  rewrite dict_get_set_eq. rewrite dict_get_set_ne by discriminate.
  apply andb_true_iff in Hwf as [Hss Hrest].
  repeat split; auto.
  - rewrite Hrest, andb_true_r. apply forallb_last; auto.
    unfold identified, field. now rewrite Hid.
  - unfold seances_of, field. rewrite dict_get_set_eq.
    now rewrite <- app_assoc.
  - unfold seances_of, field. now rewrite Hs.
Qed.

(** After a session was created in a course with modules, the list of
    sessions of the course is the list before with the new session
    put in after the sessions of the first module; and creating a
    session with the same integer id again answers 400 and writes
    nothing. *)
Theorem post_session_then_list_and_repost (s : fs) (cid sid : Z)
  (inp : dict) (l1 l2 : list json) (d m0 : dict) (rest ss : list json) :
  cours_of (document s) = Some (l1 ++ JObj d :: l2) ->
  forallb (other_id (JInt cid)) l1 = true ->
  has_id (JInt cid) (JObj d) = true ->
  wf_course (JObj d) = true ->
  dict_get "modules" d = Some (JArr (JObj m0 :: rest)) ->
  dict_get "seances" m0 = Some (JArr ss) ->
  dict_get "id" inp = Some (JInt sid) ->
  existsb (has_id (JInt sid)) (sessions_of (JObj d)) = false ->
  let s1 := (session_controller.courses_course_id_sessions_post
               cid (JObj inp) s).2 in
  session_controller.courses_course_id_sessions_get cid s =
    (Ok (JObj [("seances", JArr (ss ++ flat_map seances_of rest))], 200), s)
  /\
  session_controller.courses_course_id_sessions_get cid s1 =
    (Ok (JObj [("seances",
                JArr (ss ++ JObj inp :: flat_map seances_of rest))], 200), s1)
  /\
  session_controller.courses_course_id_sessions_post cid (JObj inp) s1 =
    (Ok (session_controller.SESSION_ALREADY_EXISTS, 400), s1).
Proof.
  intros Hd Hl1 Hc Hwf Hm Hs Hid Hex s1. unfold s1.
  rewrite (post_session_into_first s cid (JObj inp) (JInt sid) l1 l2 d m0
             rest ss Hd Hl1 Hc Hwf Hm Hs Hid Hex).
  simpl snd.
  destruct (into_first_facts cid sid d m0 inp rest ss Hc Hwf Hm Hs Hid)
    as (Hc' & Hwf' & Hses' & Hses).
  match goal with
  | |- context [saved (with_cours _ (l1 ++ ?c :: l2)) s] => set (c' := c) in *
  end.
  pose proof (saved_cours s _ (l1 ++ c' :: l2) Hd) as Hd1.
  split; [|split].
  - rewrite <- Hses. apply (get_sessions_found s cid l1 l2); auto.
    unfold wf_course, shaped, course_ok in *. rewrite Hm in *.
    now apply modules_ok_weaken with (p := identified).
  - rewrite <- Hses'. apply (get_sessions_found _ cid l1 l2); auto.
    unfold c', wf_course, shaped, course_ok in *.
    rewrite dict_get_set_eq in *.
    now apply modules_ok_weaken with (p := identified).
  - apply (post_session_taken _ cid (JObj inp) (JInt sid) l1 l2 c'); auto.
    rewrite Hses'. rewrite existsb_app. simpl.
    rewrite (has_id_int_refl _ _ Hid). simpl. apply orb_true_r.
Qed.

Lemma post_session_then_list_and_repost_witness :
  session_controller.courses_course_id_sessions_get 2
    (session_controller.courses_course_id_sessions_post 2 (sample.seance 5)
       (sample.disk [sample.algebra; sample.logic_empty])).2 =
    (Ok (JObj [("seances",
                JArr [sample.seance 5; sample.seance 7; sample.seance 8])],
         200),
     (session_controller.courses_course_id_sessions_post 2 (sample.seance 5)
        (sample.disk [sample.algebra; sample.logic_empty])).2) /\
  status (session_controller.courses_course_id_sessions_post 2
            (sample.seance 5)
            (session_controller.courses_course_id_sessions_post 2
               (sample.seance 5)
               (sample.disk [sample.algebra; sample.logic_empty])).2).1 =
    Some 400.
Proof.
  pose proof (post_session_then_list_and_repost
                (sample.disk [sample.algebra; sample.logic_empty]) 2 5
                [("id", JInt 5)] [sample.algebra] [] _
                [("id", JStr "m1"); ("seances", JArr [])] _ []
                eq_refl eq_refl eq_refl eq_refl eq_refl eq_refl eq_refl
                eq_refl) as (_ & H2 & H3).
  split; [exact H2|]. exact (f_equal (fun r => status r.1) H3).
Defined.

(** A course whose [modules] is the empty list lists no session; after
    a creation, whatever the body, it lists exactly the body, held by
    the one module that was made. *)
Theorem post_session_new_module_then_list (s : fs) (cid : Z) (input : json)
  (l1 l2 : list json) (d : dict) :
  cours_of (document s) = Some (l1 ++ JObj d :: l2) ->
  forallb (other_id (JInt cid)) l1 = true ->
  has_id (JInt cid) (JObj d) = true ->
  dict_get "modules" d = Some (JArr []) ->
  let s1 := (session_controller.courses_course_id_sessions_post
               cid input s).2 in
  session_controller.courses_course_id_sessions_get cid s =
    (Ok (JObj [("seances", JArr [])], 200), s) /\
  session_controller.courses_course_id_sessions_get cid s1 =
    (Ok (JObj [("seances", JArr [input])], 200), s1).
Proof.
  intros Hd Hl1 Hc Hm s1. unfold s1.
  rewrite (post_session_new_module s cid input l1 l2 d Hd Hl1 Hc Hm).
  simpl snd.
  match goal with
  | |- context [saved (with_cours _ (l1 ++ ?c :: l2)) s] => set (c' := c) in *
  end.
  pose proof (saved_cours s _ (l1 ++ c' :: l2) Hd) as Hd1.
  split.
  - rewrite (get_sessions_found s cid l1 l2 (JObj d) Hd Hl1 Hc).
    + unfold sessions_of, modules_of, field. now rewrite Hm.
    + unfold shaped, course_ok. now rewrite Hm.
  - rewrite (get_sessions_found _ cid l1 l2 c' Hd1 Hl1).
    + unfold c', sessions_of, modules_of, field.
      now rewrite dict_get_set_eq.
    + unfold c', has_id, field in *.
      now rewrite dict_get_set_ne by discriminate.
    + unfold c', shaped, course_ok. now rewrite dict_get_set_eq.
Qed.

Lemma post_session_new_module_then_list_witness :
  session_controller.courses_course_id_sessions_get 1
    (session_controller.courses_course_id_sessions_post 1 JNull
       (sample.disk [sample.algebra_empty])).2 =
    (Ok (JObj [("seances", JArr [JNull])], 200),
     (session_controller.courses_course_id_sessions_post 1 JNull
        (sample.disk [sample.algebra_empty])).2).
Proof.
  exact (proj2 (post_session_new_module_then_list
                  (sample.disk [sample.algebra_empty]) 1 JNull [] [] _
                  eq_refl eq_refl eq_refl eq_refl)).
Defined.

(** ** The conflict test and the search of a session *)

(** The conflict test of the creation runs one and the same search
    once per module: over no module it is false without looking at
    the request, and over one or more modules it is the outcome of a
    single search, its exception included. *)
Theorem conflict_test_is_one_search (course session_data : json)
  (m : json) (ms : list json) :
  py_any (fun _module =>
            i ← py_getitem session_data "id";
            s ← session_controller.find_session_by_id course i;
            mret (truthy (deref s))) [] = Ok false /\
  py_any (fun _module =>
            i ← py_getitem session_data "id";
            s ← session_controller.find_session_by_id course i;
            mret (truthy (deref s))) (m :: ms) =
  (i ← py_getitem session_data "id";
   s ← session_controller.find_session_by_id course i;
   mret (truthy (deref s))).
Proof.
  split; [reflexivity|].
  generalize (i ← py_getitem session_data "id";
              s ← session_controller.find_session_by_id course i;
              mret (truthy (deref s))).
  intros X. simpl. unmonad. destruct X as [[|]|]; auto.
  induction ms as [|m' ms IH]; simpl; auto.
Qed.

Lemma find_app_first {A : Type} (f : A -> bool) (l1 l2 : list A) :
  List.find f (l1 ++ l2) =
  match List.find f l1 with
  | Some x => Some x
  | None => List.find f l2
  end.
Proof.
  induction l1 as [|x l1 IH]; simpl; auto. destruct (f x); auto.
Qed.

Lemma next_from_id_find (v : json) (l : list json) (i : nat) :
  forallb identified l = true ->
  exists r, next_from (id_is v) l i = Ok r /\
            option_map snd r = List.find (has_id v) l.
Proof.
  revert i. induction l as [|x l IH]; intros i; simpl.
  - intros _. exists None. auto.
  - intros H. apply andb_true_iff in H as [Hx Hl].
    rewrite (id_is_identified _ _ Hx). unmonad.
    destruct (has_id v x) eqn:E; simpl.
    + exists (Some (i, x)). auto.
    + apply IH; auto.
Qed.

Lemma scan_modules_find (v : json) (ms : list json) (j : nat) :
  forallb (module_ok identified) ms = true ->
  exists r, session_controller.scan_modules ms v j = Ok r /\
            option_map snd r = List.find (has_id v) (flat_map seances_of ms).
Proof.
  revert j. induction ms as [|m ms IH]; intros j; simpl.
  - intros _. exists None. auto.
  - intros H. apply andb_true_iff in H as [Hm Hms].
    destruct (module_ok_seances _ _ Hm) as (ss & Hss & -> & Hid).
    unmonad. destruct (py_get m "seances" (JArr [])); try discriminate.
    rewrite Hss.
    change (fun session => match py_getitem session "id" with
                           | Ok a => Ok (py_eq a v)
                           | Raise e => Raise e
                           end) with (id_is v).
    destruct (next_from_id_find v ss 0 Hid) as (r & -> & Hr).
    rewrite find_app_first, <- Hr. destruct r as [[k x]|]; simpl.
    + exists (Some ((j, k), x)). auto.
    + apply IH; auto.
Qed.

(** On a course whose containers are lists and whose sessions all have
    an id, the search of a session raises nothing and hands out the
    first session with the id in the order in which the list of
    sessions shows them, or [None] when the list has none. *)
Theorem find_session_is_first_listed (c v : json) :
  wf_course c = true ->
  exists r, session_controller.find_session_by_id c v = Ok r /\
            option_map snd r = List.find (has_id v) (sessions_of c).
Proof.
  unfold wf_course, course_ok, session_controller.find_session_by_id,
    sessions_of, modules_of, field, py_get.
  destruct c; try discriminate. unmonad.
  destruct (dict_get "modules" kvs) as [[]|]; try discriminate; simpl.
  - apply scan_modules_find.
  - intros _. exists None. auto.
Qed.

Lemma find_session_is_first_listed_witness :
  exists r, session_controller.find_session_by_id sample.logic (JInt 8)
            = Ok r /\
            option_map snd r = Some (sample.seance 8).
Proof.
  exact (find_session_is_first_listed sample.logic (JInt 8) eq_refl).
Defined.

(** ** A course stored without an id *)

Lemma py_any_raise (p : json -> py bool) (l1 l2 : list json) (c : json)
  (e : exn) :
  Forall (fun x => p x = Ok false) l1 -> p c = Raise e ->
  py_any p (l1 ++ c :: l2) = Raise e.
Proof.
  intros Hl1 Hc. induction Hl1 as [|x l1 Hx _ IH]; simpl.
  - now rewrite Hc.
  - now rewrite Hx.
Qed.

(** The creation of a course does not ask for an id.  A body without
    [id] is stored (the answer is 201) as long as no stored course has
    the id [null]; from then on the requests that search an id the
    earlier courses do not have raise [KeyError] and write nothing:
    reading, updating and deleting a course, the three session
    endpoints, and the creation of any further course with such an
    id. *)
Theorem course_without_id_breaks_requests (s : fs) (inp : dict)
  (l : list json) (cid sid : Z) (input : json) (patch inp2 : dict) :
  cours_of (document s) = Some l ->
  dict_get "id" inp = None ->
  forallb (other_id JNull) l = true ->
  forallb (other_id (JInt cid)) l = true ->
  dict_get "id" inp2 = Some (JInt cid) ->
  let s1 := (cours_controller.courses_post (JObj inp) s).2 in
  status (cours_controller.courses_post (JObj inp) s).1 = Some 201 /\
  cours_of (document s1) = Some (l ++ [JObj inp]) /\
  cours_controller.courses_course_id_get cid s1 = (Raise KeyError, s1) /\
  cours_controller.courses_course_id_put cid patch s1 =
    (Raise KeyError, s1) /\
  cours_controller.courses_course_id_delete cid s1 = (Raise KeyError, s1) /\
  cours_controller.courses_post (JObj inp2) s1 = (Raise KeyError, s1) /\
  session_controller.courses_course_id_sessions_get cid s1 =
    (Raise KeyError, s1) /\
  session_controller.courses_course_id_sessions_post cid input s1 =
    (Raise KeyError, s1) /\
  session_controller.courses_course_id_sessions_session_id_put
    cid sid patch s1 = (Raise KeyError, s1).
Proof.
  intros Hd Hid Hnull Hl Hid2 s1. unfold s1. clear s1.
  rewrite (post_course_fresh s inp JNull l Hd) by (now rewrite Hid || auto).
  simpl fst. simpl snd.
  remember (saved (with_cours (document s) (l ++ [JObj inp])) s) as s1
    eqn:Hs1.
  assert (Hd1 : cours_of (document s1) = Some (l ++ [JObj inp]))
    by (rewrite Hs1; apply (saved_cours _ _ _ Hd)).
  clear Hs1.
  pose proof (first_course_no_id _ cid l [] inp Hd1 Hl Hid) as Hf.
  split; [reflexivity|]. split; [exact Hd1|].
  unfold cours_controller.courses_course_id_get,
    cours_controller.courses_course_id_put,
    cours_controller.courses_course_id_delete,
    session_controller.courses_course_id_sessions_get,
    session_controller.courses_course_id_sessions_post,
    session_controller.courses_course_id_sessions_session_id_put,
    session_controller.find_course_by_id.
  unmonad. rewrite (cours_load _ _ Hd1), (session_load _ _ Hd1), Hf.
  repeat split.
  unfold cours_controller.courses_post. unmonad.
  rewrite (cours_load _ _ Hd1).
  unfold cours_of, field in Hd1.
  destruct (document s1) as [| | | | |kvs]; try discriminate. simpl.
  destruct (dict_get "cours" kvs) as [[]|]; try discriminate.
  injection Hd1 as ->. simpl. rewrite Hid2. simpl.
  rewrite (py_any_raise _ l [] (JObj inp) KeyError); auto.
  - pose proof (others_no_match _ _ Hl) as Hno.
    eapply Forall_impl; [exact Hno|]. intros x Hx. unfold id_is in Hx.
    unmonad. exact Hx.
  - simpl. now rewrite Hid.
Qed.

Lemma course_without_id_breaks_requests_witness :
  status (cours_controller.courses_post (JObj [("title", JStr "T")])
            (sample.disk [sample.algebra])).1 = Some 201 /\
  cours_controller.courses_course_id_get 2
    (cours_controller.courses_post (JObj [("title", JStr "T")])
       (sample.disk [sample.algebra])).2 =
    (Raise KeyError,
     sample.disk1 [sample.algebra; JObj [("title", JStr "T")]]).
Proof.
  pose proof (course_without_id_breaks_requests
                (sample.disk [sample.algebra]) [("title", JStr "T")]
                [sample.algebra] 2 1 JNull [] [("id", JInt 2)]
                eq_refl eq_refl eq_refl eq_refl eq_refl) as (H1 & _ & H3 & _).
  split; [exact H1 | exact H3].
Defined.

(** ** The ids of the courses *)

Lemma store_session_id (c : json) (j k : nat) (x : json) :
  field "id" (store_session c j k x) = field "id" c.
Proof.
  unfold store_session. destruct c as [| | | | |d]; auto.
  destruct (dict_get "modules" d) as [[| | | |ms|]|]; auto.
  destruct (ms !! j) as [[| | | | |m]|]; auto.
  destruct (dict_get "seances" m) as [[| | | |ss|]|]; auto.
  simpl. now rewrite dict_get_set_ne by discriminate.
Qed.

Lemma put_session_success_inv (s s' : fs) (cid sid : Z) (patch : dict)
  (body : json) :
  session_controller.courses_course_id_sessions_session_id_put
    cid sid patch s = (Ok (body, 200), s') ->
  exists c c', course_rewritten cid s s' c c' /\
               field "id" c' = field "id" c.
Proof.
  unfold session_controller.courses_course_id_sessions_session_id_put,
    session_controller.find_course_by_id. unmonad.
  destruct (load_cases s) as [[_ Hload]|(e & _ & Hload & _)]; rewrite Hload;
    [|simpl; discriminate].
  destruct (first_course (document s) cid) as [[[n c]|]|] eqn:Hf;
    simpl; try discriminate.
  destruct (truthy c); simpl; try discriminate.
  destruct (session_controller.find_session_by_id c (JInt sid))
    as [session|]; try discriminate.
  destruct (negb (truthy (deref session))); try discriminate.
  destruct (py_update (deref session) patch) as [session'|];
    try discriminate.
  intros [= _ <-]. eexists c, _. split.
  - apply store_found_rewritten. exact Hf.
  - destruct session as [[[j k] x]|]; auto. apply store_session_id.
Qed.

Lemma map_id_rewritten (l1 l2 : list json) (c c' : json) :
  field "id" c' = field "id" c ->
  map (field "id") (l1 ++ c' :: l2) = map (field "id") (l1 ++ c :: l2).
Proof. intros H. rewrite !map_app. simpl. now rewrite H. Qed.

(** A creation or an update of a session that succeeds changes the id
    of no course: the ids of the courses of the written document are
    those of the document before, course by course. *)
Theorem session_requests_keep_course_ids (s s' : fs) (cid sid : Z)
  (input body : json) (patch : dict) :
  session_controller.courses_course_id_sessions_post cid input s =
    (Ok (body, 201), s') \/
  session_controller.courses_course_id_sessions_session_id_put
    cid sid patch s = (Ok (body, 200), s') ->
  exists l l',
    cours_of (document s) = Some l /\
    cours_of (document s') = Some l' /\
    map (field "id") l' = map (field "id") l.
Proof.
  intros [H|H].
  - apply post_session_success_inv in H
      as (d & ms' & (l1 & l2 & Hd & _ & _ & _ & Hd') & _).
    exists (l1 ++ JObj d :: l2), (l1 ++ JObj (dict_set "modules" (JArr ms') d)
                                  :: l2).
    repeat split; auto. apply map_id_rewritten. simpl.
    now rewrite dict_get_set_ne by discriminate.
  - apply put_session_success_inv in H
      as (c & c' & (l1 & l2 & Hd & _ & _ & _ & Hd') & Hid).
    exists (l1 ++ c :: l2), (l1 ++ c' :: l2).
    repeat split; auto. now apply map_id_rewritten.
Qed.

Lemma session_requests_keep_course_ids_witness :
  exists l l',
    cours_of (document (sample.disk [sample.algebra; sample.logic]))
      = Some l /\
    cours_of (document
                (session_controller.courses_course_id_sessions_session_id_put
                   2 8 [("id", JInt 9)]
                   (sample.disk [sample.algebra; sample.logic])).2)
      = Some l' /\
    map (field "id") l' = map (field "id") l.
Proof.
  exact (session_requests_keep_course_ids
           (sample.disk [sample.algebra; sample.logic]) _ 2 8 JNull
           (JObj [("message", JStr "Séance mise à jour avec succès.");
                  ("seance", JObj [("id", JInt 9)])])
           [("id", JInt 9)] (or_intror eq_refl)).
Defined.

Lemma ids_distinct_identified (l : list json) :
  ids_distinct l = true -> forallb identified l = true.
Proof.
  induction l as [|c r IH]; simpl; auto. unfold identified at 1.
  destruct (field "id" c); [|discriminate].
  intros H. apply andb_true_iff in H as [_ H]. auto.
Qed.

Lemma ids_distinct_last (l : list json) (x w : json) :
  ids_distinct l = true -> field "id" x = Some w ->
  forallb (other_id w) l = true -> ids_distinct (l ++ [x]) = true.
Proof.
  intros Hl Hx. induction l as [|c r IH]; simpl in *.
  - intros _. now rewrite Hx.
  - unfold other_id at 1. destruct (field "id" c) as [i|]; [|discriminate].
    apply andb_true_iff in Hl as [Hr Hl].
    intros H. apply andb_true_iff in H as [Hc Ho].
    rewrite (IH Hl Ho), andb_true_r. apply forallb_last; auto.
    now rewrite Hx.
Qed.

Lemma ids_distinct_remove (l1 l2 : list json) (c : json) :
  ids_distinct (l1 ++ c :: l2) = true -> ids_distinct (l1 ++ l2) = true.
Proof.
  induction l1 as [|x l1 IH]; simpl.
  - destruct (field "id" c); [|discriminate].
    intros H. now apply andb_true_iff in H as [_ H].
  - destruct (field "id" x); [|discriminate].
    intros H. apply andb_true_iff in H as [Hx H].
    rewrite (IH H), andb_true_r.
    rewrite forallb_app in *. simpl in Hx.
    apply andb_true_iff in Hx as [-> Hx].
    now apply andb_true_iff in Hx as [_ ->].
Qed.

Lemma ids_distinct_ext (l l' : list json) :
  map (field "id") l' = map (field "id") l ->
  ids_distinct l' = ids_distinct l.
Proof.
  revert l'. induction l as [|c r IH]; intros [|c' r']; simpl;
    try discriminate; auto.
  intros [= Hc Hr]. rewrite Hc. destruct (field "id" c); auto.
  rewrite (IH _ Hr). f_equal.
  clear -Hr. revert r' Hr.
  induction r as [|x r IH]; intros [|x' r']; simpl; try discriminate; auto.
  intros [= Hx Hr]. now rewrite Hx, (IH _ Hr).
Qed.

Lemma first_match_split (v : json) (l : list json) :
  forallb identified l = true ->
  forallb (other_id v) l = true \/
  exists l1 c l2, l = l1 ++ c :: l2 /\ forallb (other_id v) l1 = true /\
                  has_id v c = true.
Proof.
  induction l as [|x l IH]; simpl; auto.
  intros H. apply andb_true_iff in H as [Hx Hl].
  destruct (has_id v x) eqn:E.
  - right. exists [], x, l. auto.
  - assert (Ho : other_id v x = true).
    { unfold other_id, has_id, identified in *.
      destruct (field "id" x); try discriminate. now rewrite E. }
    rewrite Ho. destruct (IH Hl) as [->|(l1 & c & l2 & -> & Hl1 & Hc)]; auto.
    right. exists (x :: l1), c, l2. simpl. now rewrite Ho, Hl1.
Qed.

Lemma post_course_taken (s : fs) (inp : dict) (w : json) (l : list json) :
  cours_of (document s) = Some l ->
  default JNull (dict_get "id" inp) = w ->
  forallb identified l = true ->
  existsb (has_id w) l = true ->
  cours_controller.courses_post (JObj inp) s =
    (Ok (cours_controller.COURSE_ALREADY_EXISTS, 400), s).
Proof.
  intros Hd Hw Hid Hex.
  assert (Hany : forall l0,
             py_any (fun course =>
                       i ← py_getitem course "id";
                       i' ← py_get (JObj inp) "id" JNull;
                       mret (py_eq i i')) l0 = py_any (id_is w) l0).
  { intros l0. apply py_any_ext. intros x. unfold id_is, py_get.
    now rewrite Hw. }
  unfold cours_controller.courses_post, cours_of, field in *.
  destruct (document s) as [| | | | |kvs] eqn:Hdoc; try discriminate.
  destruct (dict_get "cours" kvs) as [[]|] eqn:Hc; try discriminate.
  injection Hd as ->.
  unmonad. rewrite (cours_load_obj _ _ Hdoc), Hdoc. simpl. rewrite Hc. simpl.
  now rewrite Hany, (py_any_id_is _ _ Hid), Hex.
Qed.

Lemma delete_course_none (s : fs) (cid : Z) (l : list json) :
  cours_of (document s) = Some l ->
  forallb (other_id (JInt cid)) l = true ->
  cours_controller.courses_course_id_delete cid s =
    (Ok (cours_controller.COURSE_NOT_FOUND, 404), s).
Proof.
  intros Hd Hl. unfold cours_controller.courses_course_id_delete. unmonad.
  now rewrite (cours_load _ _ Hd), (first_course_none _ _ _ Hd Hl).
Qed.

Lemma session_requests_cases (s : fs) (cid sid : Z) (input : json)
  (patch : dict) :
  ((session_controller.courses_course_id_sessions_post cid input s).2 = s \/
   exists body,
     session_controller.courses_course_id_sessions_post cid input s =
       (Ok (body, 201),
        (session_controller.courses_course_id_sessions_post cid input s).2))
  /\
  ((session_controller.courses_course_id_sessions_session_id_put
      cid sid patch s).2 = s \/
   exists body,
     session_controller.courses_course_id_sessions_session_id_put
       cid sid patch s =
       (Ok (body, 200),
        (session_controller.courses_course_id_sessions_session_id_put
           cid sid patch s).2)).
Proof.
  unfold session_controller.courses_course_id_sessions_post,
    session_controller.courses_course_id_sessions_session_id_put,
    session_controller.find_course_by_id.
  unmonad.
  destruct (load_cases s) as [[_ Hs]|(e & _ & Hs & _)]; rewrite Hs;
    split; split_goal; simpl; solve [left; reflexivity | right; eauto].
Qed.

(** When the courses of the document have ids and no two of them are
    equal, they still do after the creation of a course that has an
    id, after a deletion, after the creation of a session and after
    the update of a session, whatever the request answers.  (The
    update of a course is the one request that can break it.) *)
Theorem ids_stay_distinct (s : fs) (cid sid : Z) (inp patch : dict)
  (w input : json) :
  distinct_in s ->
  dict_get "id" inp = Some w ->
  distinct_in (cours_controller.courses_post (JObj inp) s).2 /\
  distinct_in (cours_controller.courses_course_id_delete cid s).2 /\
  distinct_in
    (session_controller.courses_course_id_sessions_post cid input s).2 /\
  distinct_in
    (session_controller.courses_course_id_sessions_session_id_put
       cid sid patch s).2.
Proof.
  intros (l & Hd & Hl) Hw.
  pose proof (ids_distinct_identified _ Hl) as Hid.
  destruct (session_requests_cases s cid sid input patch) as [Hpost Hput].
  split; [|split; [|split]].
  - destruct (existsb (has_id w) l) eqn:Hex.
    + rewrite (post_course_taken s inp w l Hd) by (now rewrite Hw || auto).
      exists l. auto.
    + destruct (first_match_split w l Hid)
        as [Ho|(l1 & c & l2 & -> & _ & Hc)].
      * rewrite (post_course_fresh s inp w l Hd)
          by (now rewrite Hw || auto).
        exists (l ++ [JObj inp]). split; [apply (saved_cours _ _ _ Hd)|].
        now apply (ids_distinct_last l (JObj inp) w).
      * rewrite existsb_app in Hex. simpl in Hex. rewrite Hc in Hex.
        rewrite orb_true_r in Hex. discriminate.
  - destruct (first_match_split (JInt cid) l Hid)
      as [Ho|(l1 & c & l2 & -> & Hl1 & Hc)].
    + rewrite (delete_course_none s cid l Hd Ho). exists l. auto.
    + rewrite (delete_course_found s cid l1 l2 c Hd Hl1 Hc).
      exists (l1 ++ l2). split; [apply (saved_cours _ _ _ Hd)|].
      now apply ids_distinct_remove with (c := c).
  - destruct Hpost as [->|[body Hb]]; [exists l; auto|].
    apply post_session_success_inv in Hb
      as (d & ms' & (l1 & l2 & Hd0 & _ & _ & _ & Hd') & _).
    eexists. split; [exact Hd'|].
    rewrite Hd in Hd0. injection Hd0 as ->.
    rewrite <- Hl. apply ids_distinct_ext, map_id_rewritten. simpl.
    now rewrite dict_get_set_ne by discriminate.
  - destruct Hput as [->|[body Hb]]; [exists l; auto|].
    apply put_session_success_inv in Hb
      as (c & c' & (l1 & l2 & Hd0 & _ & _ & _ & Hd') & Hcid).
    eexists. split; [exact Hd'|].
    rewrite Hd in Hd0. injection Hd0 as ->.
    rewrite <- Hl. now apply ids_distinct_ext, map_id_rewritten.
Qed.

Lemma ids_stay_distinct_witness :
  distinct_in
    (cours_controller.courses_post sample.physics
       (sample.disk [sample.algebra; sample.logic])).2 /\
  distinct_in
    (cours_controller.courses_course_id_delete 1
       (sample.disk [sample.algebra; sample.logic])).2.
Proof.
  pose proof (ids_stay_distinct
                (sample.disk [sample.algebra; sample.logic]) 1 8
                [("id", JInt 3)] [] (JInt 3) JNull
                (ex_intro _ [sample.algebra; sample.logic]
                   (conj eq_refl eq_refl)) eq_refl) as (H1 & H2 & _).
  split; [exact H1 | exact H2].
Defined.

(** ** A session stored without an id *)

(** The creation of a session in a course whose [modules] is the empty
    list does not look at the body.  A body that is an object without
    [id] is stored (the answer is 201); from then on every update of
    a session of that course and every creation of a session with an
    id in it raise [KeyError] and write nothing. *)
Theorem session_without_id_breaks_course (s : fs) (cid sid : Z)
  (inp inp2 patch : dict) (w : json) (l1 l2 : list json) (d : dict) :
  cours_of (document s) = Some (l1 ++ JObj d :: l2) ->
  forallb (other_id (JInt cid)) l1 = true ->
  has_id (JInt cid) (JObj d) = true ->
  dict_get "modules" d = Some (JArr []) ->
  dict_get "id" inp = None ->
  dict_get "id" inp2 = Some w ->
  let s1 := (session_controller.courses_course_id_sessions_post
               cid (JObj inp) s).2 in
  status (session_controller.courses_course_id_sessions_post
            cid (JObj inp) s).1 = Some 201 /\
  session_controller.courses_course_id_sessions_session_id_put
    cid sid patch s1 = (Raise KeyError, s1) /\
  session_controller.courses_course_id_sessions_post cid (JObj inp2) s1 =
    (Raise KeyError, s1).
Proof.
  intros Hd Hl1 Hc Hm Hid Hid2 s1. unfold s1. clear s1.
  rewrite (post_session_new_module s cid (JObj inp) l1 l2 d Hd Hl1 Hc Hm).
  simpl fst. simpl snd. split; [reflexivity|].
  match goal with
  | |- context [saved (with_cours _ (l1 ++ ?c :: l2)) s] =>
      remember c as c' eqn:Hc'
  end.
  remember (saved (with_cours (document s) (l1 ++ c' :: l2)) s) as s1
    eqn:Hs1.
  assert (Hd1 : cours_of (document s1) = Some (l1 ++ c' :: l2))
    by (rewrite Hs1; apply (saved_cours _ _ _ Hd)).
  assert (Hc1 : has_id (JInt cid) c' = true).
  { rewrite Hc'. unfold has_id, field in *.
    now rewrite dict_get_set_ne by discriminate. }
  assert (Hfind : forall v,
             session_controller.find_session_by_id c' v = Raise KeyError).
  { intros v. rewrite Hc'.
    unfold session_controller.find_session_by_id, py_get. unmonad.
    rewrite dict_get_set_eq. simpl. now rewrite Hid. }
  assert (Hmods : py_getitem c' "modules" =
                  Ok (JArr [JObj [("id", JStr "module_1");
                                  ("titre", JStr "Nouveau module");
                                  ("seances", JArr [JObj inp])]])).
  { rewrite Hc'. unfold py_getitem. now rewrite dict_get_set_eq. }
  clear Hs1 Hc'.
  unfold session_controller.courses_course_id_sessions_session_id_put,
    session_controller.courses_course_id_sessions_post,
    session_controller.find_course_by_id.
  unmonad. rewrite (session_load _ _ Hd1), (first_course_found _ _ _ _ _ Hd1 Hl1 Hc1).
  cbv beta iota. cbn [deref]. rewrite (has_id_truthy _ _ Hc1).
  cbn [negb]. cbv iota. rewrite Hfind, Hmods. simpl.
  rewrite Hid2, Hfind. auto.
Qed.

Lemma session_without_id_breaks_course_witness :
  status (session_controller.courses_course_id_sessions_post 1
            (JObj [("titre", JStr "T")])
            (sample.disk [sample.algebra_empty])).1 = Some 201 /\
  (session_controller.courses_course_id_sessions_post 1 (sample.seance 5)
     (session_controller.courses_course_id_sessions_post 1
        (JObj [("titre", JStr "T")])
        (sample.disk [sample.algebra_empty])).2).1 = Raise KeyError.
Proof.
  pose proof (session_without_id_breaks_course
                (sample.disk [sample.algebra_empty]) 1 1
                [("titre", JStr "T")] [("id", JInt 5)] [] (JInt 5) [] [] _
                eq_refl eq_refl eq_refl eq_refl eq_refl eq_refl)
    as (H1 & _ & H3).
  split; [exact H1 | exact (f_equal fst H3)].
Defined.

(** ** The list of courses *)

(** The list of courses answers 200 with the courses of the document
    in their order; after the creation of a course with an id that no
    course has it is the list before followed by the request body. *)
Theorem courses_get_after_post (s : fs) (inp : dict) (w : json)
  (l : list json) :
  cours_of (document s) = Some l ->
  dict_get "id" inp = Some w ->
  forallb (other_id w) l = true ->
  cours_controller.courses_get s = (Ok (JObj [("cours", JArr l)], 200), s) /\
  cours_controller.courses_get
    (cours_controller.courses_post (JObj inp) s).2 =
    (Ok (JObj [("cours", JArr (l ++ [JObj inp]))], 200),
     (cours_controller.courses_post (JObj inp) s).2).
Proof.
  intros Hd Hw Hl.
  assert (Hget : forall s0 l0,
             cours_of (document s0) = Some l0 ->
             cours_controller.courses_get s0 =
               (Ok (JObj [("cours", JArr l0)], 200), s0)).
  { intros s0 l0 H0. unfold cours_controller.courses_get. unmonad.
    rewrite (cours_load _ _ H0). unfold cours_of, field, py_getitem in *.
    destruct (document s0); try discriminate.
    destruct (dict_get "cours" kvs) as [[]|]; try discriminate.
    now injection H0 as ->. }
  split; [now apply Hget|].
  rewrite (post_course_fresh s inp w l Hd) by (now rewrite Hw || auto).
  simpl snd. apply Hget. apply (saved_cours _ _ _ Hd).
Qed.

Lemma courses_get_after_post_witness :
  cours_controller.courses_get
    (cours_controller.courses_post sample.physics
       (sample.disk [sample.algebra; sample.logic])).2 =
    (Ok (JObj [("cours", JArr [sample.algebra; sample.logic;
                               sample.physics])], 200),
     sample.disk1 [sample.algebra; sample.logic; sample.physics]).
Proof.
  exact (proj2 (courses_get_after_post
                  (sample.disk [sample.algebra; sample.logic])
                  [("id", JInt 3)] (JInt 3) [sample.algebra; sample.logic]
                  eq_refl eq_refl eq_refl)).
Defined.
